(** * Market-calendar helpers of [gamestonk_terminal/helper_funcs.py]

    A shallow embedding of the four calendar functions of the module

      - [us_market_holidays]
      - [b_is_stock_market_open]
      - [get_next_stock_market_days]
      - [get_last_time_market_was_open]

    together with the part of Python's [datetime] module they rely on
    (proleptic Gregorian ordinals, [weekday], [strptime] and [strftime]
    for the format [%Y-%m-%d], [timedelta] arithmetic in whole days and
    [replace]).  The third-party package [holidays] is a collaborator of
    the module; its calendar is a parameter of the development. *)

From Stdlib Require Import ZArith List Bool Lia String Ascii Sorted.
Import ListNotations.
Local Open Scope Z_scope.

(** ** Exceptions and results *)

Inductive exn : Type :=
| KeyError
| ValueError
| OverflowError.

Inductive result (A : Type) : Type :=
| Ok (a : A)
| Raise (e : exn).
Arguments Ok {A} a.
Arguments Raise {A} e.

Definition bind {A B : Type} (r : result A) (k : A -> result B) : result B :=
  match r with
  | Ok a => k a
  | Raise e => Raise e
  end.

Notation "x <- r ;; k" := (bind r (fun x => k))
  (at level 61, r at next level, right associativity).

(** ** The [datetime] module *)

Module Datetime.

(** A [date] is kept as its proleptic Gregorian ordinal, the number
    [date.toordinal()] returns: day 1 is 0001-01-01. *)
Definition date : Type := Z.

Definition MINYEAR : Z := 1.
Definition MAXYEAR : Z := 9999.

Definition is_leap (year : Z) : bool :=
  (year mod 4 =? 0) && (negb (year mod 100 =? 0) || (year mod 400 =? 0)).

Definition days_before_year (year : Z) : Z :=
  let y := year - 1 in
  y * 365 + y / 4 - y / 100 + y / 400.

Definition days_in_month (year month : Z) : Z :=
  if (month =? 2) && is_leap year then 29
  else nth (Z.to_nat month) [0; 31; 28; 31; 30; 31; 30; 31; 31; 30; 31; 30; 31] 0.

Definition DAYS_BEFORE_MONTH : list Z :=
  [0; 0; 31; 59; 90; 120; 151; 181; 212; 243; 273; 304; 334].

Definition days_before_month (year month : Z) : Z :=
  nth (Z.to_nat month) DAYS_BEFORE_MONTH 0
  + (if (2 <? month) && is_leap year then 1 else 0).

(** [_ymd2ord]: ordinal of a year, month, day triple. *)
Definition ymd2ord (year month day : Z) : date :=
  days_before_year year + days_before_month year month + day.

Definition MINORD : Z := 1.
Definition MAXORD : Z := Eval cbv in ymd2ord 9999 12 31.

(** [date(year, month, day)]: the constructor checks its fields. *)
Definition mkdate (year month day : Z) : result date :=
  if (MINYEAR <=? year) && (year <=? MAXYEAR)
     && (1 <=? month) && (month <=? 12)
     && (1 <=? day) && (day <=? days_in_month year month)
  then Ok (ymd2ord year month day)
  else Raise ValueError.

(** [_ord2ymd]: year, month and day of an ordinal. *)
Definition ord2ymd (n0 : date) : Z * Z * Z :=
  let n := n0 - 1 in
  let n400 := n / 146097 in
  let n := n mod 146097 in
  let n100 := n / 36524 in
  let n := n mod 36524 in
  let n4 := n / 1461 in
  let n := n mod 1461 in
  let n1 := n / 365 in
  let n := n mod 365 in
  let year := n400 * 400 + 1 + n100 * 100 + n4 * 4 + n1 in
  if (n1 =? 4) || (n100 =? 4) then (year - 1, 12, 31)
  else
    let leapyear := (n1 =? 3) && (negb (n4 =? 24) || (n100 =? 3)) in
    let month := Z.shiftr (n + 50) 5 in
    let preceding :=
      nth (Z.to_nat month) DAYS_BEFORE_MONTH 0
      + (if (2 <? month) && leapyear then 1 else 0) in
    if n <? preceding then
      let month' := month - 1 in
      let preceding' :=
        preceding
        - (nth (Z.to_nat month') [0; 31; 28; 31; 30; 31; 30; 31; 31; 30; 31; 30; 31] 0
           + (if (month' =? 2) && leapyear then 1 else 0)) in
      (year, month', n - preceding' + 1)
    else (year, month, n - preceding + 1).

Definition year (d : date) : Z := fst (fst (ord2ymd d)).
Definition month (d : date) : Z := snd (fst (ord2ymd d)).
Definition day (d : date) : Z := snd (ord2ymd d).

(** [date.weekday()]: Monday is 0 and Sunday is 6. *)
Definition weekday (d : date) : Z := (d + 6) mod 7.

(** [date + timedelta(days)] *)
Definition date_add_days (d : date) (days : Z) : result date :=
  let o := d + days in
  if (MINORD <=? o) && (o <=? MAXORD) then Ok o else Raise OverflowError.

(** A [time] of day, with its microseconds. *)
Record time : Type := Time {
  hour : Z;
  minute : Z;
  second : Z;
  microsecond : Z
}.

(** Times compare as the tuples of their fields. *)
Definition time_ltb (a b : time) : bool :=
  (hour a <? hour b)
  || ((hour a =? hour b)
      && ((minute a <? minute b)
          || ((minute a =? minute b)
              && ((second a <? second b)
                  || ((second a =? second b)
                      && (microsecond a <? microsecond b)))))).

(** A naive [datetime]: a calendar date and a clock value. *)
Record datetime : Type := DT {
  dt_date : date;
  dt_time : time
}.

(** [dt + timedelta(hours=h)] for [h] a multiple of 24: the clock value
    stays and the date moves by [h / 24] days. *)
Definition add_days (dt : datetime) (days : Z) : result datetime :=
  d <- date_add_days (dt_date dt) days ;;
  Ok (DT d (dt_time dt)).

(** [dt.replace(hour=h, minute=m, second=s)]: the microsecond is kept. *)
Definition replace_hms (dt : datetime) (h m s : Z) : datetime :=
  DT (dt_date dt) (Time h m s (microsecond (dt_time dt))).

End Datetime.
Import Datetime.

(** ** Strings: [str(int)], [strftime] and [strptime] for [%Y-%m-%d] *)

Module Text.

Local Open Scope string_scope.

Definition code (c : ascii) : Z := Z.of_nat (nat_of_ascii c).

Definition in_range (c : ascii) (lo hi : ascii) : bool :=
  ((code lo <=? code c) && (code c <=? code hi))%Z.

(** The regular expression class [\d] on ASCII text. *)
Definition is_digit (c : ascii) : bool := in_range c "0" "9".

Definition digit_val (c : ascii) : Z := (code c - 48)%Z.

Definition digit_char (d : Z) : ascii := ascii_of_nat (Z.to_nat (48 + d)).

(** Decimal digits of a non-negative integer, most significant first,
    pushed in front of [acc]. *)
Fixpoint digits (fuel : nat) (n : Z) (acc : string) : string :=
  match fuel with
  | O => acc
  | S fuel' =>
      let acc' := String (digit_char (n mod 10)) acc in
      if (n <? 10)%Z then acc' else digits fuel' (n / 10) acc'
  end.

Definition digits_fuel (n : Z) : nat := S (Z.to_nat (Z.log2 n)).

(** [str(n)], also what the f-string [f"{n}"] produces. *)
Definition str_of_int (n : Z) : string :=
  if (n <? 0)%Z then String "-" (digits (digits_fuel (- n)) (- n) "")
  else digits (digits_fuel n) n "".

(** A field padded with zeros to [width] characters, as [%m], [%d]
    and [%Y] are. *)
Fixpoint zeros (n : nat) : string :=
  match n with
  | O => ""
  | S k => String "0" (zeros k)
  end.

Definition zero_pad (width : nat) (s : string) : string :=
  zeros (width - length s) ++ s.

(** [d.strftime("%Y-%m-%d")] *)
Definition strftime (d : date) : string :=
  zero_pad 4 (str_of_int (year d)) ++ "-"
  ++ zero_pad 2 (str_of_int (month d)) ++ "-"
  ++ zero_pad 2 (str_of_int (day d)).

Definition orelse {A : Type} (p q : option A) : option A :=
  match p with
  | Some a => Some a
  | None => q
  end.

(** One or two characters in given classes, then the rest of the
    pattern [k], which receives the number read; a leading blank
    counts for nothing. *)
Definition two_chars {A : Type} (lo1 hi1 lo2 hi2 : ascii) (s : string)
    (k : Z -> string -> option A) : option A :=
  match s with
  | String c1 (String c2 rest) =>
      if in_range c1 lo1 hi1 && in_range c2 lo2 hi2
      then k ((if is_digit c1 then 10 * digit_val c1 else 0) + digit_val c2)%Z rest
      else None
  | _ => None
  end.

Definition one_char {A : Type} (lo hi : ascii) (s : string)
    (k : Z -> string -> option A) : option A :=
  match s with
  | String c rest => if in_range c lo hi then k (digit_val c) rest else None
  | _ => None
  end.

Definition literal {A : Type} (c : ascii) (s : string)
    (k : string -> option A) : option A :=
  match s with
  | String c' rest => if Ascii.eqb c c' then k rest else None
  | _ => None
  end.

(** [%Y] is [\d\d\d\d]. *)
Definition re_Y {A : Type} (s : string) (k : Z -> string -> option A) : option A :=
  match s with
  | String c1 (String c2 (String c3 (String c4 rest))) =>
      if is_digit c1 && is_digit c2 && is_digit c3 && is_digit c4
      then k (1000 * digit_val c1 + 100 * digit_val c2
              + 10 * digit_val c3 + digit_val c4)%Z rest
      else None
  | _ => None
  end.

(** [%m] is [1[0-2]|0[1-9]|[1-9]], the alternatives tried in order. *)
Definition re_m {A : Type} (s : string) (k : Z -> string -> option A) : option A :=
  orelse (two_chars "1" "1" "0" "2" s k)
    (orelse (two_chars "0" "0" "1" "9" s k)
       (one_char "1" "9" s k)).

(** [%d] is [3[0-1]|[1-2]\d|0[1-9]|[1-9]| [1-9]]. *)
Definition re_d {A : Type} (s : string) (k : Z -> string -> option A) : option A :=
  orelse (two_chars "3" "3" "0" "1" s k)
    (orelse (two_chars "1" "2" "0" "9" s k)
       (orelse (two_chars "0" "0" "1" "9" s k)
          (orelse (one_char "1" "9" s k)
             (two_chars " " " " "1" "9" s k)))).

(** The compiled format [%Y-%m-%d] matched at the start of [s]:
    the three fields and what is left of the text. *)
Definition re_Ymd (s : string) : option (Z * Z * Z * string) :=
  re_Y s (fun y s1 =>
  literal "-" s1 (fun s2 =>
  re_m s2 (fun m s3 =>
  literal "-" s3 (fun s4 =>
  re_d s4 (fun d rest => Some (y, m, d, rest)))))).

(** [datetime.strptime(s, "%Y-%m-%d").date()]: no match, text left
    over and a date that does not exist all raise [ValueError]. *)
Definition strptime (s : string) : result date :=
  match re_Ymd s with
  | Some (y, m, d, EmptyString) => mkdate y m d
  | _ => Raise ValueError
  end.

End Text.
Import Text.

(** ** Python values that meet in a membership test *)

(** The lists searched with [in] hold [datetime.date] objects, while the
    value looked for is the text [strftime] returns.  [==] between a
    [str] and a [date] is [False]: neither class compares itself with
    the other, and the two objects are not the same object. *)
Inductive pyval : Type :=
| PyStr (s : string)
| PyDate (d : date).

Definition py_eqb (a b : pyval) : bool :=
  match a, b with
  | PyStr s, PyStr t => String.eqb s t
  | PyDate d, PyDate e => Z.eqb d e
  | _, _ => false
  end.

(** [x in l] for a list [l] *)
Definition py_in (x : pyval) (l : list pyval) : bool := existsb (py_eqb x) l.

Definition str_in (x : string) (l : list string) : bool := existsb (String.eqb x) l.

Definition int_in (x : Z) (l : list Z) : bool := existsb (Z.eqb x) l.

(** The argument of [us_market_holidays]: one year or a list of years. *)
Inductive years_arg : Type :=
| YInt (year : Z)
| YList (years : list Z).

(** The object [holidays.US(years=...)] is a dictionary from dates to
    holiday names that keeps the order in which the entries were made. *)
Definition holiday_dict : Type := list (date * string).

Fixpoint dict_get (d : holiday_dict) (key : date) : result string :=
  match d with
  | [] => Raise KeyError
  | (k, v) :: rest => if Z.eqb k key then Ok v else dict_get rest key
  end.

Definition dict_keys (d : holiday_dict) : list date := map fst d.

(** ** The calendar functions *)

Module Calendar.

Definition market_holidays : list string :=
  [ "Martin Luther King Jr. Day";
    "Washington's Birthday";
    "Memorial Day";
    "Independence Day";
    "Labor Day";
    "Thanksgiving";
    "Christmas Day" ]%string.

Definition good_fridays : list (Z * string) :=
  [ (2010, "2010-04-02"); (2011, "2011-04-22"); (2012, "2012-04-06");
    (2013, "2013-03-29"); (2014, "2014-04-18"); (2015, "2015-04-03");
    (2016, "2016-03-25"); (2017, "2017-04-14"); (2018, "2018-03-30");
    (2019, "2019-04-19"); (2020, "2020-04-10"); (2021, "2021-04-02");
    (2022, "2022-04-15"); (2023, "2023-04-07"); (2024, "2024-03-29");
    (2025, "2025-04-18"); (2026, "2026-04-03"); (2027, "2027-03-26");
    (2028, "2028-04-14"); (2029, "2029-03-30"); (2030, "2030-04-19") ]%string.

(** [good_fridays[year]] *)
Fixpoint table_get (t : list (Z * string)) (year : Z) : result string :=
  match t with
  | [] => Raise KeyError
  | (k, v) :: rest => if Z.eqb k year then Ok v else table_get rest year
  end.

Definition market_and_observed_holidays : list string :=
  market_holidays ++ map (fun holiday => (holiday ++ " (Observed)")%string) market_holidays.

Section WithHolidays.

(** [us_holidays(years=years)] of the package [holidays], and the test
    [key in us_holidays()] for a text key, which the package answers
    from the calendar of the year the key names. *)
Variable us_holidays : list Z -> holiday_dict.
Variable us_holidays_contains : string -> bool.

(** The loop over [list(all_holidays)]. *)
Fixpoint keep_market (all_holidays : holiday_dict) (keys : list date)
    (valid_holidays : list date) : result (list date) :=
  match keys with
  | [] => Ok valid_holidays
  | date :: rest =>
      name <- dict_get all_holidays date ;;
      keep_market all_holidays rest
        (if str_in name market_and_observed_holidays
         then valid_holidays ++ [date] else valid_holidays)
  end.

(** The first loop over [years]: New Year's Day. *)
Fixpoint add_new_years (years : list Z) (valid_holidays : list date)
    : result (list date) :=
  match years with
  | [] => Ok valid_holidays
  | year :: rest =>
      new_Year <- strptime (str_of_int year ++ "-01-01") ;;
      let valid1 :=
        if negb (weekday new_Year =? 5)
        then valid_holidays ++ [new_Year] else valid_holidays in
      valid2 <- (if weekday new_Year =? 6
                 then monday <- date_add_days new_Year 1 ;; Ok (valid1 ++ [monday])
                 else Ok valid1) ;;
      add_new_years rest valid2
  end.

(** The second loop over [years]: Good Friday. *)
Fixpoint add_good_fridays (years : list Z) (valid_holidays : list date)
    : result (list date) :=
  match years with
  | [] => Ok valid_holidays
  | year :: rest =>
      text <- table_get good_fridays year ;;
      friday <- strptime text ;;
      add_good_fridays rest (valid_holidays ++ [friday])
  end.

Definition normalize (years : years_arg) : list Z :=
  match years with
  | YInt year => [year]
  | YList l => l
  end.

Definition us_market_holidays (years : years_arg) : result (list date) :=
  let years := normalize years in
  let all_holidays := us_holidays years in
  valid0 <- keep_market all_holidays (dict_keys all_holidays) [] ;;
  valid1 <- add_new_years years valid0 ;;
  add_good_fridays years valid1.

(** [b_is_stock_market_open], with the reading of the clock
    [datetime.now(timezone("US/Eastern"))] as its argument. *)
Definition b_is_stock_market_open (now : datetime) : result bool :=
  if 4 <? weekday (dt_date now) then Ok false
  else
    holidays <- us_market_holidays (YInt (year (dt_date now))) ;;
    if py_in (PyStr (strftime (dt_date now))) (map PyDate holidays) then Ok false
    else if time_ltb (dt_time now) (Time 9 30 0 0) then Ok false
    else if time_ltb (Time 16 0 0 0) (dt_time now) then Ok false
    else Ok true.

(** The local variables of [get_next_stock_market_days]. *)
Record loop_state : Type := LoopState {
  last_stock_day : datetime;
  n_days : Z;
  l_pred_days : list datetime;
  years_seen : list Z;
  holidays_seen : list date
}.

(** One turn of the [while] loop, started with [n_days < n_next_days]. *)
Definition loop_body (st : loop_state) : result loop_state :=
  last <- add_days (last_stock_day st) 1 ;;
  let year := year (dt_date last) in
  cache <- (if negb (int_in year (years_seen st))
            then hs <- us_market_holidays (YInt year) ;;
                 Ok (years_seen st ++ [year], holidays_seen st ++ hs)
            else Ok (years_seen st, holidays_seen st)) ;;
  let '(years, holidays) := cache in
  if 4 <? weekday (dt_date last)
  then Ok (LoopState last (n_days st) (l_pred_days st) years holidays)
  else if py_in (PyStr (strftime (dt_date last))) (map PyDate holidays)
  then Ok (LoopState last (n_days st) (l_pred_days st) years holidays)
  else Ok (LoopState last (n_days st + 1) (l_pred_days st ++ [last]) years holidays).

(** The [while] loop; [None] when [fuel] turns do not finish it. *)
Fixpoint while_loop (fuel : nat) (n_next_days : Z) (st : loop_state)
    : option (result (list datetime)) :=
  if n_days st <? n_next_days then
    match fuel with
    | O => None
    | S fuel' =>
        match loop_body st with
        | Raise e => Some (Raise e)
        | Ok st' => while_loop fuel' n_next_days st'
        end
    end
  else Some (Ok (l_pred_days st)).

(** Every turn moves the date one day on and no date lies after
    9999-12-31, so this many turns always finish the loop. *)
Definition turns_left (d : date) : nat := Z.to_nat (MAXORD - d + 1).

Definition get_next_stock_market_days (last_stock_day : datetime)
    (n_next_days : Z) : option (result (list datetime)) :=
  while_loop (turns_left (dt_date last_stock_day)) n_next_days
    (LoopState last_stock_day 0 [] [] []).

(** [get_last_time_market_was_open]; [None] when the calls nest deeper
    than [fuel]. *)
Fixpoint last_open (fuel : nat) (dt : datetime) : option (result datetime) :=
  match fuel with
  | O => None
  | S fuel' =>
      let back (dt : datetime) : option (result datetime) :=
        match add_days dt (-1) with
        | Raise e => Some (Raise e)
        | Ok dt' => last_open fuel' dt'
        end in
      match (if 4 <? weekday (dt_date dt) then back dt else Some (Ok dt)) with
      | None => None
      | Some (Raise e) => Some (Raise e)
      | Some (Ok dt1) =>
          match (if us_holidays_contains (strftime (dt_date dt1))
                 then back dt1 else Some (Ok dt1)) with
          | None => None
          | Some (Raise e) => Some (Raise e)
          | Some (Ok dt2) => Some (Ok (replace_hms dt2 21 0 0))
          end
      end
  end.

(** Each nested call is for an earlier day and no date lies before
    0001-01-01, so the calls never nest deeper than this. *)
Definition depth_left (d : date) : nat := Z.to_nat (d + 1).

Definition get_last_time_market_was_open (dt : datetime)
    : option (result datetime) :=
  last_open (depth_left (dt_date dt)) dt.

End WithHolidays.

End Calendar.
Import Calendar.

(** ** A calendar to run the functions on

    A holiday source after the federal rules in force since 1971, with
    the names the package [holidays] gives the days and its shifts of a
    holiday that falls on a weekend. *)

Module Sample.

Local Open Scope string_scope.

(** [dict[key] = value] *)
Fixpoint dict_set (d : holiday_dict) (key : date) (value : string) : holiday_dict :=
  match d with
  | [] => [(key, value)]
  | (k, v) :: rest =>
      if Z.eqb k key then (k, value) :: rest else (k, v) :: dict_set rest key value
  end.

(** The [n]-th day of the week [wd] of a month. *)
Definition nth_weekday (year month wd n : Z) : date :=
  let first := ymd2ord year month 1 in
  (first + (wd - weekday first) mod 7 + 7 * (n - 1))%Z.

(** The last day of the week [wd] of a month. *)
Definition last_weekday (year month wd : Z) : date :=
  let last := ymd2ord year month (days_in_month year month) in
  (last - (weekday last - wd) mod 7)%Z.

(** A holiday of fixed date and the day it is observed on. *)
Definition with_observed (d : date) (name : string) : holiday_dict :=
  (d, name)
  :: (if (weekday d =? 5)%Z then [((d - 1)%Z, name ++ " (Observed)")]
      else if (weekday d =? 6)%Z then [((d + 1)%Z, name ++ " (Observed)")]
      else []).

Definition populate (year : Z) : holiday_dict :=
  if (year <? 1971)%Z then []
  else
   ([(ymd2ord year 1 1, "New Year's Day")]
    ++ (if (weekday (ymd2ord year 1 1) =? 6)%Z
        then [(ymd2ord year 1 2, "New Year's Day (Observed)")] else [])
    ++ (if (weekday (ymd2ord year 12 31) =? 4)%Z
        then [(ymd2ord year 12 31, "New Year's Day (Observed)")] else [])
    ++ (if (1986 <=? year)%Z
        then [(nth_weekday year 1 0 3, "Martin Luther King Jr. Day")] else [])
    ++ [(nth_weekday year 2 0 3, "Washington's Birthday")]
    ++ [(last_weekday year 5 0, "Memorial Day")]
    ++ with_observed (ymd2ord year 7 4) "Independence Day"
    ++ [(nth_weekday year 9 0 1, "Labor Day")]
    ++ [(nth_weekday year 10 0 2, "Columbus Day")]
    ++ with_observed (ymd2ord year 11 11) "Veterans Day"
    ++ [(nth_weekday year 11 3 4, "Thanksgiving")]
    ++ with_observed (ymd2ord year 12 25) "Christmas Day")%list.

Definition us_holidays (years : list Z) : holiday_dict :=
  fold_left (fun d '(k, v) => dict_set d k v) (flat_map populate years) [].

Definition us_holidays_contains (key : string) : bool :=
  match strptime key with
  | Ok d => int_in d (dict_keys (us_holidays [year d]))
  | Raise _ => false
  end.

End Sample.

(** ** The other helpers of the module *)

(** Operations of [str] on ASCII text. *)
Module Str.

(** [c in s] for a single character [c] *)
Fixpoint contains_char (c : ascii) (s : string) : bool :=
  match s with
  | EmptyString => false
  | String c' rest => Ascii.eqb c c' || contains_char c rest
  end.

(** [p in s]: [p] occurs in [s] as a run of consecutive characters. *)
Fixpoint is_substring (p s : string) : bool :=
  String.prefix p s
  || match s with
     | EmptyString => false
     | String _ rest => is_substring p rest
     end.

(** [s.split(sep)] for a separator of one character: one field more
    than there are separators, empty fields included. *)
Fixpoint split_on (sep : ascii) (s : string) : list string :=
  match s with
  | EmptyString => [EmptyString]
  | String c rest =>
      if Ascii.eqb c sep then EmptyString :: split_on sep rest
      else match split_on sep rest with
           | field :: fields => String c field :: fields
           | [] => [String c EmptyString]
           end
  end.

(** [s.replace(a, b)] for [a] and [b] of one character each. *)
Fixpoint replace_char (a b : ascii) (s : string) : string :=
  match s with
  | EmptyString => EmptyString
  | String c rest => String (if Ascii.eqb c a then b else c) (replace_char a b rest)
  end.

Definition is_upper (c : ascii) : bool := in_range c "A" "Z".

Definition is_lower (c : ascii) : bool := in_range c "a" "z".

(** [c.isalpha()] *)
Definition is_alpha (c : ascii) : bool := is_upper c || is_lower c.

Definition lower_char (c : ascii) : ascii :=
  if is_upper c then ascii_of_nat (nat_of_ascii c + 32) else c.

Definition upper_char (c : ascii) : ascii :=
  if is_lower c then ascii_of_nat (nat_of_ascii c - 32) else c.

Fixpoint map_chars (f : ascii -> ascii) (s : string) : string :=
  match s with
  | EmptyString => EmptyString
  | String c rest => String (f c) (map_chars f rest)
  end.

(** [s.lower()] and [s.upper()] of a text of ASCII characters: the
    letters A to Z and a to z change and nothing else does.  (On other
    characters Python follows the case mappings of Unicode.) *)
Definition lower (s : string) : string := map_chars lower_char s.

Definition upper (s : string) : string := map_chars upper_char s.

(** [sum(p(c) for c in s)] *)
Fixpoint count_chars (p : ascii -> bool) (s : string) : Z :=
  match s with
  | EmptyString => 0
  | String c rest => (if p c then 1 else 0) + count_chars p rest
  end.

End Str.

Module Helpers.

Local Open Scope string_scope.

(** *** [divide_chunks] *)

(** [range(i, stop, step)] for a positive [step], in at most [fuel]
    values. *)
Fixpoint range_from (fuel : nat) (i stop step : Z) : list Z :=
  match fuel with
  | O => []
  | S fuel' =>
      if (i <? stop)%Z then i :: range_from fuel' (i + step)%Z stop step else []
  end.

(** [range(0, stop, step)]: a zero step is refused, and a negative one
    counts down from 0, to nothing when [stop] is not negative. *)
Definition range0 (stop step : Z) : result (list Z) :=
  if (step =? 0)%Z then Raise ValueError
  else if (step <? 0)%Z then Ok []
  else Ok (range_from (Z.to_nat stop) 0 stop step).

(** [data[i:j]] for [0 <= i <= j] *)
Definition slice {A : Type} (data : list A) (i j : Z) : list A :=
  firstn (Z.to_nat (j - i)) (skipn (Z.to_nat i) data).

(** The chunks [divide_chunks(data, n)] yields, collected. *)
Definition divide_chunks {A : Type} (data : list A) (n : Z) : result (list (list A)) :=
  indices <- range0 (Z.of_nat (List.length data)) n ;;
  Ok (map (fun i => slice data i (i + n)%Z) indices).

(** *** Types for [argparse] *)

(** What a type function of [argparse] ends with: the value, the
    [ArgumentTypeError] it raises, or an exception it lets through. *)
Inductive checked (A : Type) : Type :=
| Accept (a : A)
| ArgumentTypeError (message : string)
| Uncaught (e : exn).
Arguments Accept {A} a.
Arguments ArgumentTypeError {A} message.
Arguments Uncaught {A} e.

Section WithInt.

(** [int(text)] of Python, which raises [ValueError] on text that is
    no integer. *)
Variable py_int : string -> result Z.

Definition check_positive (value : string) : checked Z :=
  match py_int value with
  | Raise e => Uncaught e
  | Ok new_value =>
      if (new_value <=? 0)%Z
      then ArgumentTypeError (value ++ " is an invalid positive int value")
      else Accept new_value
  end.

(** The loop of [check_positive_list] over the fields. *)
Fixpoint positive_loop (value : string) (list_of_nums : list string)
    (list_of_pos : list Z) : checked (list Z) :=
  match list_of_nums with
  | [] => Accept list_of_pos
  | a_value :: rest =>
      match py_int a_value with
      | Raise e => Uncaught e
      | Ok new_value =>
          if (new_value <=? 0)%Z
          then ArgumentTypeError (value ++ " is an invalid positive int value")
          else positive_loop value rest (list_of_pos ++ [new_value])
      end
  end.

Definition check_positive_list (value : string) : checked (list Z) :=
  positive_loop value (Str.split_on "," value) [].

End WithInt.

(** *** [valid_date] *)

Definition midnight : time := Time 0 0 0 0.

Definition valid_date (s : string) : checked datetime :=
  match strptime s with
  | Ok d => Accept (DT d midnight)
  | Raise _ => ArgumentTypeError ("Not a valid date: " ++ s)
  end.

(** *** [check_ohlc] and [lett_to_num] *)

Definition is_ohlca (c : ascii) : bool :=
  Ascii.eqb c "o" || Ascii.eqb c "h" || Ascii.eqb c "l" || Ascii.eqb c "c"
  || Ascii.eqb c "a".

(** What is left of the text after the longest run of [[ohlca]]. *)
Fixpoint after_ohlca (s : string) : string :=
  match s with
  | String c rest => if is_ohlca c then after_ohlca rest else s
  | EmptyString => EmptyString
  end.

(** [$] without flags: the end of the text, or just before a newline
    that ends the text. *)
Definition at_end (s : string) : bool :=
  match s with
  | EmptyString => true
  | String c EmptyString => Ascii.eqb c "010"
  | _ => false
  end.

(** [bool(re.match("^[ohlca]+$", s))].  The class holds no newline, so
    a shorter run than the longest never ends where [$] matches. *)
Definition match_ohlca (s : string) : bool :=
  match s with
  | String c rest => is_ohlca c && at_end (after_ohlca rest)
  | EmptyString => false
  end.

Definition check_ohlc (type_ohlc : string) : checked string :=
  if match_ohlca type_ohlc then Accept type_ohlc
  else ArgumentTypeError "The type specified is not recognized".

Definition replacements : list (ascii * ascii) :=
  [("o", "1"); ("h", "2"); ("l", "3"); ("c", "4"); ("a", "5")]%char.

Definition lett_to_num (word : string) : string :=
  fold_left (fun word '(a, b) => Str.replace_char a b word) replacements word.

(** *** [str_to_bool] *)

(** The argument of [str_to_bool]: a [bool] or a text. *)
Inductive bool_or_str : Type :=
| VBool (b : bool)
| VStr (s : string).

Definition str_to_bool (value : bool_or_str) : result bool :=
  match value with
  | VBool b => Ok b
  | VStr s =>
      if str_in (Str.lower s) ["false"; "f"; "0"; "no"; "n"] then Ok false
      else if str_in (Str.lower s) ["true"; "t"; "1"; "yes"; "y"] then Ok true
      else Raise ValueError
  end.

(** [str(b)] *)
Definition str_of_bool (b : bool) : string := if b then "True" else "False".

(** *** [text_adjustment_len] *)

Definition ESC : ascii := "027"%char.

Fixpoint skip_class (lo hi : ascii) (s : string) : string :=
  match s with
  | String c rest => if in_range c lo hi then skip_class lo hi rest else s
  | EmptyString => EmptyString
  end.

(** The pattern [\x1B[@-_][0-?]*[ -/]*[@-~]] matched at the start of
    the text: what follows the match.  The three classes share no
    character, so the starred parts take all they can. *)
Definition match_ansi (s : string) : option string :=
  match s with
  | String e (String c rest) =>
      if Ascii.eqb e ESC && in_range c "@" "_" then
        match skip_class " " "/" (skip_class "0" "?" rest) with
        | String f rest' => if in_range f "@" "~" then Some rest' else None
        | EmptyString => None
        end
      else None
  | _ => None
  end.

(** [ansi_regx.sub("", text)], on at most [fuel] characters. *)
Fixpoint strip_ansi (fuel : nat) (text : string) : string :=
  match fuel with
  | O => text
  | S fuel' =>
      match text with
      | EmptyString => EmptyString
      | String c rest =>
          match match_ansi text with
          | Some rest' => strip_ansi fuel' rest'
          | None => String c (strip_ansi fuel' rest)
          end
      end
  end.

Definition ansi_sub (text : string) : string := strip_ansi (length text) text.

Definition text_adjustment_len (text : string) : Z :=
  Z.of_nat (length (ansi_sub text)).

(** *** [financials_colored_values] *)

Section WithColors.

(** [Fore.YELLOW], [Fore.RED], [Fore.GREEN] and [Style.RESET_ALL] of
    the package [colorama]. *)
Variables YELLOW RED GREEN RESET_ALL : string.

Definition financials_colored_values (val : string) : string :=
  if String.eqb val "N/A" || String.eqb val "nan" then YELLOW ++ "N/A" ++ RESET_ALL
  else if (Str.count_chars Str.is_alpha val <? 2)%Z then
    if (Str.contains_char "%" val && Str.contains_char "-" val)
       || (negb (Str.contains_char "%" val) && Str.contains_char "(" val)
    then RED ++ val ++ RESET_ALL
    else if Str.contains_char "%" val then GREEN ++ val ++ RESET_ALL
    else val
  else val.

End WithColors.

(** *** [export_data] *)

(** What [export_data] does to the outside: the files it has the data
    frame and the figure written to, and the lines it prints. *)
Inductive effect : Type :=
| ToCsv (path : string)
| ToJson (path : string)
| ToExcel (path : string)
| SaveFig (path : string)
| Printed (text : string).

(** The call the body of the loop makes for a field: a writer of the
    data frame or of the figure, or the line that refuses the type. *)
Definition export_call (full_path exp_type : string) : effect :=
  let saved_path := full_path ++ "." ++ exp_type in
  if String.eqb exp_type "csv" then ToCsv saved_path
  else if String.eqb exp_type "json" then ToJson saved_path
  else if Str.is_substring exp_type "xlsx" then ToExcel saved_path
  else if String.eqb exp_type "png" then SaveFig saved_path
  else if String.eqb exp_type "jpg" then SaveFig saved_path
  else if String.eqb exp_type "pdf" then SaveFig saved_path
  else if String.eqb exp_type "svg" then SaveFig saved_path
  else Printed ("Wrong export file specified." ++ String "010" "").

Section WithWriters.

(** Whether a call of a writer raises: the file system, the engine
    pandas has for the extension and the figure decide. *)
Variable raises : effect -> bool.

Definition call_raises (call : effect) : bool :=
  match call with
  | Printed _ => false
  | _ => raises call
  end.

(** The body of the loop for one field that is not empty: what it
    does, and whether an exception leaves it.  The line that names the
    saved file is printed only when the call has returned. *)
Definition export_one (full_path exp_type : string) : list effect * bool :=
  let saved_path := full_path ++ "." ++ exp_type in
  let call := export_call full_path exp_type in
  if call_raises call then ([call], true)
  else ([call; Printed ("Saved file: " ++ saved_path ++ String "010" "")], false).

(** The loop over the fields: an exception ends it. *)
Fixpoint export_loop (full_path : string) (fields : list string)
    : list effect * bool :=
  match fields with
  | [] => ([], false)
  | exp_type :: rest =>
      if String.eqb exp_type "" then export_loop full_path rest
      else
        let (done, raised) := export_one full_path exp_type in
        if raised then (done, true)
        else
          let (more, raised') := export_loop full_path rest in
          ((done ++ more)%list, raised')
  end.

(** [export_data], with the path [full_path] it builds from the
    directory, the name of the command and the clock: what it does,
    and whether an exception of a writer leaves it. *)
Definition export_data (export_type full_path : string) : list effect * bool :=
  if String.eqb export_type "" then ([], false)
  else
    let export_type :=
      if negb (Str.contains_char "," export_type) then export_type ++ ","
      else export_type in
    export_loop full_path (Str.split_on "," export_type).

End WithWriters.

End Helpers.

(** The values of the package [colorama]. *)
Module Colorama.

Definition Fore_YELLOW : string := String Helpers.ESC "[33m".
Definition Fore_RED : string := String Helpers.ESC "[31m".
Definition Fore_GREEN : string := String Helpers.ESC "[32m".
Definition Style_RESET_ALL : string := String Helpers.ESC "[0m".

End Colorama.

(** A reader of integers to run [check_positive_list] on: decimal
    digits after an optional minus sign. *)
Module SampleInt.

Fixpoint digits_value (acc : Z) (s : string) : option Z :=
  match s with
  | EmptyString => Some acc
  | String c rest =>
      if is_digit c then digits_value (10 * acc + digit_val c) rest else None
  end.

Definition py_int (s : string) : result Z :=
  match s with
  | EmptyString => Raise ValueError
  | String c rest =>
      if Ascii.eqb c "-" then
        match rest, digits_value 0 rest with
        | String _ _, Some v => Ok (- v)
        | _, _ => Raise ValueError
        end
      else match digits_value 0 s with
           | Some v => Ok v
           | None => Raise ValueError
           end
  end.

End SampleInt.

(** * Vocabulary of the properties *)

(** [f] holds of the [n] integers from [lo] on. *)
Fixpoint range_forallb (n : nat) (lo : Z) (f : Z -> bool) : bool :=
  match n with
  | O => true
  | S k => f lo && range_forallb k (lo + 1) f
  end.

(** Text that starts with the given number of digits. *)
Fixpoint leading_digits (n : nat) (s : string) : bool :=
  match n with
  | O => true
  | S k =>
      match s with
      | String c rest => is_digit c && leading_digits k rest
      | EmptyString => false
      end
  end.

(** Text made of digits only. *)
Fixpoint all_digits (s : string) : bool :=
  match s with
  | String c rest => is_digit c && all_digits rest
  | EmptyString => true
  end.

(** The years [%Y] can read back from [f"{year}"]. *)
Definition four_digits (y : Z) : bool := (1000 <=? y)%Z && (y <=? 9999)%Z.

(** The dates the first loop keeps from the holiday source. *)
Definition kept (all_holidays : holiday_dict) (keys : list date) : list date :=
  filter (fun k => match dict_get all_holidays k with
                   | Ok name => str_in name market_and_observed_holidays
                   | Raise _ => false
                   end) keys.

(** The dates of the holiday source listed under a market name. *)
Definition market_dates (all_holidays : holiday_dict) : list date :=
  kept all_holidays (dict_keys all_holidays).

(** January 1 of a year. *)
Definition new_year (y : Z) : date := ymd2ord y 1 1.

(** The dates the New Year loop adds for one year. *)
Definition new_year_dates (y : Z) : list date :=
  (if negb (weekday (new_year y) =? 5) then [new_year y] else [])
  ++ (if weekday (new_year y) =? 6 then [new_year y + 1] else []).

(** The years that are keys of [good_fridays]. *)
Definition in_table (y : Z) : bool := (2010 <=? y) && (y <=? 2030).

(** The date the table lists for a year. *)
Definition good_friday (y : Z) : date :=
  match table_get good_fridays y with
  | Ok text => match strptime text with Ok d => d | Raise _ => 0 end
  | Raise _ => 0
  end.

(** Timestamps compare by date, then by clock value. *)
Definition dt_lt (a b : datetime) : Prop :=
  dt_date a < dt_date b
  \/ (dt_date a = dt_date b /\ time_ltb (dt_time a) (dt_time b) = true).

(** The first and the last day of the years of the table. *)
Definition first_day : date := new_year 2010.

Definition final_day : date := ymd2ord 2030 12 31.

(** What the days predicted from [start] have in common. *)
Definition good_day (start x : datetime) : Prop :=
  dt_lt start x /\ dt_time x = dt_time start /\ weekday (dt_date x) <= 4.


(** The invariant of the loop started from [start] to collect [n] days. *)
Definition loop_inv (start : datetime) (n : Z) (st : loop_state) : Prop :=
  dt_time (last_stock_day st) = dt_time start
  /\ dt_date start <= dt_date (last_stock_day st)
  /\ n_days st = Z.of_nat (List.length (l_pred_days st))
  /\ n_days st <= n
  /\ StronglySorted dt_lt (l_pred_days st)
  /\ Forall (fun x => good_day start x
                      /\ dt_date x <= dt_date (last_stock_day st))
       (l_pred_days st).

(** [datetime(y, m, d, ...)] with the clock value [t]. *)
Definition at_time (y m d : Z) (t : time) : datetime := DT (ymd2ord y m d) t.

Section Outcomes.

Variable us_holidays : list Z -> holiday_dict.
Variable us_holidays_contains : string -> bool.

(** The state after a turn to a day of the years 2010 to 2030. *)
Definition next_state (st : loop_state) : loop_state :=
  let last := DT (dt_date (last_stock_day st) + 1) (dt_time (last_stock_day st)) in
  let y := year (dt_date last) in
  let seen := int_in y (years_seen st) in
  let years := if seen then years_seen st else years_seen st ++ [y] in
  let holidays :=
    if seen then holidays_seen st
    else holidays_seen st
         ++ market_dates (us_holidays [y]) ++ new_year_dates y ++ [good_friday y] in
  if 4 <? weekday (dt_date last)
  then LoopState last (n_days st) (l_pred_days st) years holidays
  else LoopState last (n_days st + 1) (l_pred_days st ++ [last]) years holidays.

(** A day the function stops on: a weekday the holiday calendar does
    not hold. *)
Definition open_day (d : date) : Prop :=
  weekday d <= 4 /\ us_holidays_contains (strftime d) = false.

(** The outcome of a search that starts on day [d] with clock value [t]:
    the last open day up to [d], at 21:00:00 and the microsecond of
    [t]; or [OverflowError] when no day from 0001-01-01 to [d] is open. *)
Definition last_open_outcome (d : date) (t : time) (res : result datetime) : Prop :=
  match res with
  | Ok r =>
      dt_time r = Time 21 0 0 (microsecond t)
      /\ open_day (dt_date r)
      /\ MINORD <= dt_date r <= d
      /\ (forall x, dt_date r < x <= d -> ~ open_day x)
  | Raise e =>
      e = OverflowError /\ (forall x, MINORD <= x <= d -> ~ open_day x)
  end.

End Outcomes.

(** Every character of the text satisfies [p]. *)
Fixpoint all_chars (p : ascii -> bool) (s : string) : bool :=
  match s with
  | EmptyString => true
  | String c rest => p c && all_chars p rest
  end.

(** The digit [lett_to_num] puts for a letter. *)
Definition lett_char (c : ascii) : ascii :=
  if Ascii.eqb c "o" then "1"
  else if Ascii.eqb c "h" then "2"
  else if Ascii.eqb c "l" then "3"
  else if Ascii.eqb c "c" then "4"
  else if Ascii.eqb c "a" then "5"
  else c.

Definition newline : string := String "010" EmptyString.

(** A character of ASCII. *)
Definition is_ascii (c : ascii) : bool := code c <? 128.

Definition nonempty (s : string) : bool := negb (String.eqb s EmptyString).

(** The bodies of the fields run one after the other, up to the first
    that an exception leaves. *)
Fixpoint run_fields (body : string -> list Helpers.effect * bool)
    (fields : list string) : list Helpers.effect * bool :=
  match fields with
  | [] => ([], false)
  | field :: rest =>
      let (done, raised) := body field in
      if raised then (done, true)
      else
        let (more, raised') := run_fields body rest in
        ((done ++ more)%list, raised')
  end.

(** A text the pattern of ANSI escapes matches as a whole, whatever
    comes after it. *)
Definition is_escape (code : string) : Prop :=
  forall rest, Helpers.match_ansi (code ++ rest) = Some rest.

(** Month and day of the [n]-th day of a year, counted from 0: the end
    of [_ord2ymd]. *)
Definition month_day (n : Z) (leapyear : bool) : Z * Z :=
  let month := Z.shiftr (n + 50) 5 in
  let preceding :=
    nth (Z.to_nat month) DAYS_BEFORE_MONTH 0
    + (if (2 <? month) && leapyear then 1 else 0) in
  if n <? preceding then
    let month' := month - 1 in
    let preceding' :=
      preceding
      - (nth (Z.to_nat month') [0; 31; 28; 31; 30; 31; 30; 31; 31; 30; 31; 30; 31] 0
         + (if (month' =? 2) && leapyear then 1 else 0)) in
    (month', n - preceding' + 1)
  else (month, n - preceding + 1).

(** The check [date(year, month, day)] makes of a month and a day,
    given whether the year is a leap year. *)
Definition month_day_valid (leapyear : bool) (month day : Z) : bool :=
  (1 <=? month) && (month <=? 12) && (1 <=? day)
  && (day <=? (if (month =? 2) && leapyear then 29
               else nth (Z.to_nat month)
                      [0; 31; 28; 31; 30; 31; 30; 31; 31; 30; 31; 30; 31] 0)).

(** * Properties *)

(** ** Checking a predicate on a range of integers *)

Lemma range_forallb_spec (n : nat) (lo : Z) (f : Z -> bool) :
  range_forallb n lo f = true ->
  forall z, lo <= z < lo + Z.of_nat n -> f z = true.
Proof.
  revert lo; induction n as [|n IH]; intros lo H z Hz.
  - simpl in Hz; lia.
  - simpl in H. apply andb_true_iff in H as [H0 H1].
    destruct (Z.eq_dec z lo) as [->|Hne]; [assumption|].
    apply (IH (lo + 1)); [assumption | lia].
Qed.

(** ** Text of a year and its parsing *)

Section TextFacts.

Local Open Scope string_scope.

Lemma digit_char_digit (k : Z) :
  0 <= k <= 9 -> is_digit (digit_char k) = true /\ digit_val (digit_char k) = k.
Proof.
  intros H.
  assert (E : k = 0 \/ k = 1 \/ k = 2 \/ k = 3 \/ k = 4 \/ k = 5 \/ k = 6
              \/ k = 7 \/ k = 8 \/ k = 9) by lia.
  repeat destruct E as [E|E]; subst k; split; reflexivity.
Qed.

Lemma mod10_digit (n : Z) :
  is_digit (digit_char (n mod 10)) = true
  /\ digit_val (digit_char (n mod 10)) = n mod 10.
Proof. apply digit_char_digit. pose proof (Z.mod_pos_bound n 10); lia. Qed.

Lemma digit_not_dash (c : ascii) : is_digit c = true -> Ascii.eqb "-" c = false.
Proof.
  intros H. destruct (Ascii.eqb_spec "-" c) as [<-|]; [discriminate H | reflexivity].
Qed.

Lemma digits_fuel_ge (n b : Z) :
  0 < b -> 2 ^ b <= n -> exists f, digits_fuel n = (Z.to_nat b + S f)%nat.
Proof.
  intros Hb Hn. unfold digits_fuel.
  assert (b <= Z.log2 n).
  { rewrite <- (Z.log2_pow2 b) by lia. apply Z.log2_le_mono. assumption. }
  exists (Z.to_nat (Z.log2 n) - Z.to_nat b)%nat. lia.
Qed.

(** A year of four digits prints as its four digits. *)
Lemma str_of_int_four (y : Z) :
  1000 <= y <= 9999 ->
  str_of_int y =
    String (digit_char (y / 10 / 10 / 10 mod 10))
      (String (digit_char (y / 10 / 10 mod 10))
         (String (digit_char (y / 10 mod 10))
            (String (digit_char (y mod 10)) ""))).
Proof.
  intros H. unfold str_of_int.
  replace (y <? 0)%Z with false by (symmetry; apply Z.ltb_ge; lia).
  destruct (digits_fuel_ge y 3) as [f ->]; [lia | simpl; lia |].
  change (Z.to_nat 3 + S f)%nat with (S (S (S (S f)))).
  cbn [digits].
  replace (y <? 10)%Z with false by (symmetry; apply Z.ltb_ge; lia).
  replace (y / 10 <? 10)%Z with false
    by (symmetry; apply Z.ltb_ge; Z.div_mod_to_equations; lia).
  replace (y / 10 / 10 <? 10)%Z with false
    by (symmetry; apply Z.ltb_ge; Z.div_mod_to_equations; lia).
  replace (y / 10 / 10 / 10 <? 10)%Z with true
    by (symmetry; apply Z.ltb_lt; Z.div_mod_to_equations; lia).
  reflexivity.
Qed.

Lemma re_Ymd_four (c1 c2 c3 c4 : ascii) :
  is_digit c1 = true -> is_digit c2 = true ->
  is_digit c3 = true -> is_digit c4 = true ->
  re_Ymd (String c1 (String c2 (String c3 (String c4 "-01-01")))) =
  Some (1000 * digit_val c1 + 100 * digit_val c2 + 10 * digit_val c3
        + digit_val c4, 1, 1, "")%Z.
Proof.
  intros H1 H2 H3 H4. unfold re_Ymd, re_Y. rewrite H1, H2, H3, H4. reflexivity.
Qed.

Lemma mkdate_jan1 (y : Z) : 1 <= y <= 9999 -> mkdate y 1 1 = Ok (ymd2ord y 1 1).
Proof.
  intros H. unfold mkdate, MINYEAR, MAXYEAR.
  replace (1 <=? y)%Z with true by (symmetry; apply Z.leb_le; lia).
  replace (y <=? 9999)%Z with true by (symmetry; apply Z.leb_le; lia).
  reflexivity.
Qed.

(** Parsing the text [f"{year}-01-01"] of a year of four digits. *)
Lemma strptime_new_year (y : Z) :
  1000 <= y <= 9999 ->
  strptime (str_of_int y ++ "-01-01") = Ok (ymd2ord y 1 1).
Proof.
  intros H. rewrite (str_of_int_four y H). cbn [append].
  unfold strptime.
  destruct (mod10_digit (y / 10 / 10 / 10)) as [D1 V1].
  destruct (mod10_digit (y / 10 / 10)) as [D2 V2].
  destruct (mod10_digit (y / 10)) as [D3 V3].
  destruct (mod10_digit y) as [D4 V4].
  rewrite (re_Ymd_four _ _ _ _ D1 D2 D3 D4), V1, V2, V3, V4.
  replace (1000 * (y / 10 / 10 / 10 mod 10) + 100 * (y / 10 / 10 mod 10)
           + 10 * (y / 10 mod 10) + y mod 10)%Z with y
    by (Z.div_mod_to_equations; lia).
  apply mkdate_jan1; lia.
Qed.

Lemma leading_digits_app (n : nat) (p s : string) :
  all_digits p = true -> leading_digits n s = true ->
  leading_digits n (p ++ s) = true.
Proof.
  revert n; induction p as [|c p IH]; intros n Hp Hs; [exact Hs|].
  simpl in Hp. apply andb_true_iff in Hp as [Hc Hp].
  destruct n as [|n]; [reflexivity|].
  cbn [append leading_digits]. rewrite Hc. cbn [andb].
  apply IH; [assumption|].
  clear -Hs. revert s Hs. induction n as [|n IHn]; intros s Hs; [reflexivity|].
  destruct s as [|c s]; [discriminate Hs|].
  cbn [leading_digits] in *. apply andb_true_iff in Hs as [Hc Hs].
  rewrite Hc. cbn [andb]. destruct n as [|n']; [reflexivity|].
  apply IHn. destruct s as [|c' s]; [discriminate Hs|]. exact Hs.
Qed.

Lemma digits_prefix (fuel : nat) :
  forall n acc, exists p,
    digits fuel n acc = p ++ acc /\ all_digits p = true.
Proof.
  induction fuel as [|fuel IH]; intros n acc.
  - exists "". split; reflexivity.
  - cbn [digits]. destruct (n <? 10)%Z.
    + exists (String (digit_char (n mod 10)) ""). split; [reflexivity|].
      cbn [all_digits]. destruct (mod10_digit n) as [-> _]. reflexivity.
    + destruct (IH (n / 10) (String (digit_char (n mod 10)) acc)) as [p [E Hp]].
      exists (p ++ String (digit_char (n mod 10)) "").
      split.
      * rewrite E. clear. induction p as [|c p IHp]; [reflexivity|].
        cbn [append]. f_equal. exact IHp.
      * clear -Hp. induction p as [|c p IHp].
        -- cbn [append all_digits]. destruct (mod10_digit n) as [-> _]. reflexivity.
        -- cbn [append all_digits] in *. apply andb_true_iff in Hp as [-> Hp].
           cbn [andb]. apply IHp, Hp.
Qed.

(** The pattern wants a dash after four digits. *)
Lemma re_Ymd_five_digits (s : string) : leading_digits 5 s = true -> re_Ymd s = None.
Proof.
  intros H.
  destruct s as [|c1 [|c2 [|c3 [|c4 [|c5 t]]]]]; cbn [leading_digits] in H;
    repeat match goal with
           | H : _ && _ = true |- _ => apply andb_true_iff in H as [? H]
           | H : false = true |- _ => discriminate H
           | H : false && _ = true |- _ => discriminate H
           end.
  unfold re_Ymd, re_Y.
  repeat match goal with H : is_digit _ = true |- _ => rewrite H; revert H end.
  intros. cbn [andb literal]. rewrite digit_not_dash by assumption. reflexivity.
Qed.

Lemma str_of_int_five (y : Z) : 10000 <= y -> leading_digits 5 (str_of_int y) = true.
Proof.
  intros H. unfold str_of_int.
  replace (y <? 0)%Z with false by (symmetry; apply Z.ltb_ge; lia).
  destruct (digits_fuel_ge y 4) as [f ->]; [lia | simpl; lia |].
  change (Z.to_nat 4 + S f)%nat with (S (S (S (S (S f))))).
  cbn [digits].
  replace (y <? 10)%Z with false by (symmetry; apply Z.ltb_ge; lia).
  replace (y / 10 <? 10)%Z with false
    by (symmetry; apply Z.ltb_ge; Z.div_mod_to_equations; lia).
  replace (y / 10 / 10 <? 10)%Z with false
    by (symmetry; apply Z.ltb_ge; Z.div_mod_to_equations; lia).
  replace (y / 10 / 10 / 10 <? 10)%Z with false
    by (symmetry; apply Z.ltb_ge; Z.div_mod_to_equations; lia).
  set (tail4 := String (digit_char (y / 10 / 10 / 10 mod 10))
                  (String (digit_char (y / 10 / 10 mod 10))
                     (String (digit_char (y / 10 mod 10))
                        (String (digit_char (y mod 10)) "")))).
  assert (T : leading_digits 4 tail4 = true).
  { unfold tail4. cbn [leading_digits].
    destruct (mod10_digit (y / 10 / 10 / 10)) as [-> _].
    destruct (mod10_digit (y / 10 / 10)) as [-> _].
    destruct (mod10_digit (y / 10)) as [-> _].
    destruct (mod10_digit y) as [-> _]. reflexivity. }
  destruct (mod10_digit (y / 10 / 10 / 10 / 10)) as [D5 _].
  destruct (y / 10 / 10 / 10 / 10 <? 10)%Z.
  - cbn [leading_digits] in *. rewrite D5. exact T.
  - destruct (digits_prefix f (y / 10 / 10 / 10 / 10 / 10)
                (String (digit_char (y / 10 / 10 / 10 / 10 mod 10)) tail4))
      as [p [-> Hp]].
    apply leading_digits_app; [assumption|].
    cbn [leading_digits] in *. rewrite D5. exact T.
Qed.

(** Any other year does not parse. *)
Lemma strptime_new_year_error (y : Z) :
  four_digits y = false ->
  strptime (str_of_int y ++ "-01-01") = Raise ValueError.
Proof.
  intros H. unfold four_digits in H.
  destruct (Z.ltb_spec y 0) as [Hneg|Hpos].
  - unfold str_of_int. replace (y <? 0)%Z with true by (symmetry; apply Z.ltb_lt; lia).
    unfold strptime, re_Ymd, re_Y. cbn [append].
    destruct (digits _ _ _ ++ _) as [|c2 [|c3 [|c4 t]]]; reflexivity.
  - destruct (Z.leb_spec 1000 y) as [Hbig|Hsmall].
    + destruct (Z.leb_spec y 9999); [discriminate H|].
      unfold strptime. rewrite re_Ymd_five_digits; [reflexivity|].
      pose proof (str_of_int_five y ltac:(lia)) as L.
      clear -L. revert L. generalize (str_of_int y). intros s.
      generalize 5%nat. intros n; revert s.
      induction n as [|n IH]; intros s L; [reflexivity|].
      destruct s as [|c s]; [discriminate L|].
      cbn [append leading_digits] in *. apply andb_true_iff in L as [-> L].
      cbn [andb]. apply IH, L.
    + assert (C : range_forallb 1000 0
                    (fun z => match strptime (str_of_int z ++ "-01-01") with
                              | Raise ValueError => true
                              | _ => false
                              end) = true) by (vm_compute; reflexivity).
      pose proof (range_forallb_spec _ _ _ C y ltac:(lia)) as E. cbv beta in E.
      destruct (strptime _) as [|[]]; try discriminate E. reflexivity.
Qed.

End TextFacts.

(** ** [us_market_holidays] *)

Lemma dict_get_key (d : holiday_dict) (k : date) :
  In k (dict_keys d) -> exists v, dict_get d k = Ok v.
Proof.
  induction d as [|[k0 v0] d IH]; intros H; [contradiction|].
  cbn [dict_get]. destruct (Z.eqb_spec k0 k) as [E|N]; [eauto|].
  destruct H as [H|H]; [simpl in H; congruence | auto].
Qed.

Lemma keep_market_ok (all_holidays : holiday_dict) (keys : list date) :
  (forall k, In k keys -> In k (dict_keys all_holidays)) ->
  forall valid,
    keep_market all_holidays keys valid = Ok (valid ++ kept all_holidays keys).
Proof.
  induction keys as [|k keys IH]; intros Hk valid.
  - cbn. now rewrite app_nil_r.
  - destruct (dict_get_key all_holidays k (Hk k (or_introl eq_refl))) as [v E].
    cbn [keep_market kept filter]. rewrite E. cbn [bind].
    rewrite IH by (intros; apply Hk; now right).
    destruct (str_in v market_and_observed_holidays); [|reflexivity].
    now rewrite <- app_assoc.
Qed.

Lemma new_year_bounds (y : Z) :
  1000 <= y <= 9999 -> MINORD <= new_year y + 1 <= MAXORD.
Proof.
  intros H. unfold new_year, ymd2ord, MINORD, MAXORD.
  change (days_before_month y 1) with 0. unfold days_before_year.
  Z.div_mod_to_equations. lia.
Qed.

Lemma four_digits_spec (y : Z) : four_digits y = true <-> 1000 <= y <= 9999.
Proof. unfold four_digits. rewrite andb_true_iff, !Z.leb_le. tauto. Qed.

Lemma in_table_spec (y : Z) : in_table y = true <-> 2010 <= y <= 2030.
Proof. unfold in_table. rewrite andb_true_iff, !Z.leb_le. tauto. Qed.

Lemma in_table_four_digits (y : Z) : in_table y = true -> four_digits y = true.
Proof. rewrite in_table_spec, four_digits_spec. lia. Qed.

Lemma add_new_years_ok (years : list Z) :
  forallb four_digits years = true ->
  forall valid,
    add_new_years years valid = Ok (valid ++ flat_map new_year_dates years).
Proof.
  induction years as [|y years IH]; intros H valid.
  - cbn. now rewrite app_nil_r.
  - cbn [forallb] in H. apply andb_true_iff in H as [Hy H].
    apply four_digits_spec in Hy.
    cbn [add_new_years flat_map]. rewrite (strptime_new_year y Hy). cbn [bind].
    fold (new_year y). unfold new_year_dates, date_add_days.
    pose proof (new_year_bounds y Hy) as [B1 B2].
    apply Z.leb_le in B1, B2. rewrite B1, B2. cbn [andb].
    destruct (negb (weekday (new_year y) =? 5)), (weekday (new_year y) =? 6);
      cbn [bind]; rewrite IH by assumption; rewrite <- ?app_assoc; reflexivity.
Qed.

Lemma add_new_years_error (years : list Z) :
  forallb four_digits years = false ->
  forall valid, add_new_years years valid = Raise ValueError.
Proof.
  induction years as [|y years IH]; intros H valid; [discriminate H|].
  cbn [forallb] in H. cbn [add_new_years].
  destruct (four_digits y) eqn:Hy.
  - apply four_digits_spec in Hy. rewrite (strptime_new_year y Hy). cbn [bind].
    unfold date_add_days. fold (new_year y).
    pose proof (new_year_bounds y Hy) as [B1 B2].
    apply Z.leb_le in B1, B2. rewrite B1, B2. cbn [andb].
    destruct (weekday (new_year y) =? 6); cbn [bind]; apply IH; exact H.
  - rewrite (strptime_new_year_error y Hy). reflexivity.
Qed.

(** Every entry of the table parses to a Friday that prints back as the
    entry. *)
Lemma good_friday_entry (y : Z) :
  in_table y = true ->
  exists text,
    table_get good_fridays y = Ok text
    /\ strptime text = Ok (good_friday y)
    /\ strftime (good_friday y) = text
    /\ weekday (good_friday y) = 4
    /\ year (good_friday y) = y.
Proof.
  intros H. apply in_table_spec in H.
  assert (C : range_forallb 21 2010
                (fun z => match table_get good_fridays z with
                          | Ok text =>
                              match strptime text with
                              | Ok d => String.eqb (strftime d) text
                                        && (weekday d =? 4) && (year d =? z)
                              | Raise _ => false
                              end
                          | Raise _ => false
                          end) = true) by (vm_compute; reflexivity).
  pose proof (range_forallb_spec _ _ _ C y ltac:(lia)) as E. cbv beta in E.
  unfold good_friday.
  destruct (table_get good_fridays y) as [text|]; [|discriminate E].
  destruct (strptime text) as [d|] eqn:P; [|discriminate E].
  apply andb_true_iff in E as [E E3]. apply andb_true_iff in E as [E1 E2].
  apply String.eqb_eq in E1. apply Z.eqb_eq in E2, E3.
  exists text. rewrite P. auto.
Qed.

Lemma table_get_missing (y : Z) :
  in_table y = false -> table_get good_fridays y = Raise KeyError.
Proof.
  intros H. unfold good_fridays. cbn [table_get].
  repeat match goal with
         | |- context [Z.eqb ?k y] =>
             destruct (Z.eqb_spec k y) as [<-|_]; [discriminate H|]
         end.
  reflexivity.
Qed.

Lemma add_good_fridays_ok (years : list Z) :
  forallb in_table years = true ->
  forall valid,
    add_good_fridays years valid = Ok (valid ++ map good_friday years).
Proof.
  induction years as [|y years IH]; intros H valid.
  - cbn. now rewrite app_nil_r.
  - cbn [forallb] in H. apply andb_true_iff in H as [Hy H].
    destruct (good_friday_entry y Hy) as [text [E1 [E2 _]]].
    cbn [add_good_fridays map]. rewrite E1. cbn [bind]. rewrite E2. cbn [bind].
    rewrite IH by assumption. now rewrite <- app_assoc.
Qed.

Lemma add_good_fridays_error (years : list Z) :
  forallb in_table years = false ->
  forall valid, add_good_fridays years valid = Raise KeyError.
Proof.
  induction years as [|y years IH]; intros H valid; [discriminate H|].
  cbn [forallb] in H. cbn [add_good_fridays].
  destruct (in_table y) eqn:Hy.
  - destruct (good_friday_entry y Hy) as [text [E1 [E2 _]]].
    rewrite E1. cbn [bind]. rewrite E2. cbn [bind]. apply IH. exact H.
  - rewrite (table_get_missing y Hy). reflexivity.
Qed.

Section MarketHolidays.

Variable us_holidays : list Z -> holiday_dict.

(** What [us_market_holidays] returns when all the years are in the
    table. *)
Lemma us_market_holidays_ok (years : years_arg) :
  forallb in_table (normalize years) = true ->
  us_market_holidays us_holidays years =
  Ok (market_dates (us_holidays (normalize years))
      ++ flat_map new_year_dates (normalize years)
      ++ map good_friday (normalize years)).
Proof.
  intros H. unfold us_market_holidays.
  rewrite keep_market_ok by auto. cbn [bind app].
  rewrite add_new_years_ok.
  2:{ apply forallb_forall. intros y Hy. apply in_table_four_digits.
      revert y Hy. now apply forallb_forall. }
  cbn [bind]. rewrite add_good_fridays_ok by assumption.
  now rewrite <- app_assoc.
Qed.

(** What it raises when some year is not. *)
Lemma us_market_holidays_raise (years : years_arg) :
  forallb in_table (normalize years) = false ->
  us_market_holidays us_holidays years =
  Raise (if forallb four_digits (normalize years) then KeyError else ValueError).
Proof.
  intros H. unfold us_market_holidays.
  rewrite keep_market_ok by auto. cbn [bind app].
  destruct (forallb four_digits (normalize years)) eqn:F.
  - rewrite add_new_years_ok by assumption. cbn [bind].
    now apply add_good_fridays_error.
  - now rewrite add_new_years_error.
Qed.

End MarketHolidays.

(** ** Claims on [us_market_holidays] and [b_is_stock_market_open] *)

Lemma py_in_str_dates (s : string) (l : list date) :
  py_in (PyStr s) (map PyDate l) = false.
Proof. induction l as [|d l IH]; [reflexivity | exact IH]. Qed.


Lemma weekday_succ (d : date) : weekday (d + 1) = (weekday d + 1) mod 7.
Proof. unfold weekday. Z.div_mod_to_equations. lia. Qed.

Lemma in_new_year_dates (y : Z) (d : date) :
  In d (new_year_dates y) ->
  (d = new_year y /\ weekday d <> 5) \/ (d = new_year y + 1 /\ weekday d = 0).
Proof.
  unfold new_year_dates. intros H. apply in_app_or in H as [H|H].
  - destruct (Z.eqb_spec (weekday (new_year y)) 5) as [E|N]; cbn in H;
      [contradiction|]. destruct H as [<-|[]]. now left.
  - destruct (Z.eqb_spec (weekday (new_year y)) 6) as [E|N]; cbn in H;
      [|contradiction]. destruct H as [<-|[]]. right. split; [reflexivity|].
    rewrite weekday_succ, E. reflexivity.
Qed.

Section MarketHolidayClaims.

Variable us_holidays : list Z -> holiday_dict.

(** C5. For every requested year of a call that covers only years of the
    table, [us_market_holidays] returns a list that holds January 1 of
    the year unless that day is a Saturday; on a Saturday the list does
    not hold it (the holiday source not listing January 1 under one of
    the market names); and when January 1 is a Sunday the list also
    holds the Monday after it. *)
Theorem us_market_holidays_new_year (years : years_arg) (y : Z) :
  forallb in_table (normalize years) = true ->
  In y (normalize years) ->
  exists hs,
    us_market_holidays us_holidays years = Ok hs
    /\ (weekday (new_year y) <> 5 -> In (new_year y) hs)
    /\ (weekday (new_year y) = 5 ->
        ~ In (new_year y) (market_dates (us_holidays (normalize years))) ->
        ~ In (new_year y) hs)
    /\ (weekday (new_year y) = 6 -> In (new_year y + 1) hs).
Proof.
  intros T Hy. eexists. split; [apply us_market_holidays_ok; exact T|].
  assert (NY : forall d, In d (new_year_dates y) ->
                         In d (flat_map new_year_dates (normalize years))).
  { intros d Hd. apply in_flat_map. eauto. }
  repeat split.
  - intros W. apply in_or_app. right. apply in_or_app. left. apply NY.
    unfold new_year_dates. apply in_or_app. left.
    destruct (Z.eqb_spec (weekday (new_year y)) 5); [contradiction | now left].
  - intros W Hsrc Hin.
    apply in_app_or in Hin as [Hin|Hin]; [contradiction|].
    apply in_app_or in Hin as [Hin|Hin].
    + apply in_flat_map in Hin as [y' [_ Hin]].
      apply in_new_year_dates in Hin as [[_ N]|[_ N]]; lia.
    + apply in_map_iff in Hin as [y' [E Hin]].
      assert (Ty' : in_table y' = true).
      { apply (proj1 (forallb_forall in_table (normalize years)) T y' Hin). }
      destruct (good_friday_entry y' Ty') as [_ [_ [_ [_ [F _]]]]].
      rewrite E in F. lia.
  - intros W. apply in_or_app. right. apply in_or_app. left. apply NY.
    unfold new_year_dates. apply in_or_app. right.
    destruct (Z.eqb_spec (weekday (new_year y)) 6); [now left | contradiction].
Qed.

(** C6. For every year from 2010 to 2030 the table has an entry, the
    entry parses to a date that prints back as the entry, and
    [us_market_holidays] of the year returns a list that holds this
    date, as its last element. *)
Theorem us_market_holidays_good_friday (y : Z) :
  2010 <= y <= 2030 ->
  exists text d front,
    table_get good_fridays y = Ok text
    /\ strptime text = Ok d
    /\ strftime d = text
    /\ us_market_holidays us_holidays (YInt y) = Ok (front ++ [d])
    /\ In d (front ++ [d]).
Proof.
  intros H. apply in_table_spec in H.
  destruct (good_friday_entry y H) as [text [E1 [E2 [E3 _]]]].
  exists text, (good_friday y).
  exists (market_dates (us_holidays [y]) ++ new_year_dates y).
  repeat split; try assumption.
  - rewrite us_market_holidays_ok by (cbn; now rewrite H).
    cbn [normalize flat_map map]. now rewrite app_nil_r, app_assoc.
  - apply in_or_app. right. now left.
Qed.

(** C7, as the code has it.  A call that names a year outside 2010 to
    2030 raises and returns nothing: [KeyError], from the Good Friday
    table, when every year of the call has four digits; [ValueError],
    from parsing the text of January 1, when some year has not. *)
Theorem us_market_holidays_outside_table (years : years_arg) (y : Z) :
  In y (normalize years) ->
  ~ 2010 <= y <= 2030 ->
  us_market_holidays us_holidays years =
  Raise (if forallb four_digits (normalize years) then KeyError else ValueError).
Proof.
  intros Hy N. apply us_market_holidays_raise.
  destruct (forallb in_table (normalize years)) eqn:F; [|reflexivity].
  exfalso. apply N. apply in_table_spec.
  apply (proj1 (forallb_forall in_table (normalize years)) F y Hy).
Qed.

(** C10. A bare year gives what the list of that one year gives. *)
Theorem us_market_holidays_int_is_singleton (y : Z) :
  us_market_holidays us_holidays (YInt y) = us_market_holidays us_holidays (YList [y]).
Proof. reflexivity. Qed.

(** C4, as the code has it.  On a Saturday or a Sunday
    [b_is_stock_market_open] returns false whatever the time and the
    year.  On a weekday of a year from 2010 to 2030
    [us_market_holidays] returns a list for the year, and when the date
    is not in that list the function returns true exactly when the time
    is neither before 09:30:00 nor after 16:00:00. *)
Theorem b_is_stock_market_open_hours (now : datetime) :
  (weekday (dt_date now) = 5 \/ weekday (dt_date now) = 6 ->
   b_is_stock_market_open us_holidays now = Ok false)
  /\ (weekday (dt_date now) <= 4 ->
      in_table (year (dt_date now)) = true ->
      exists hs,
        us_market_holidays us_holidays (YInt (year (dt_date now))) = Ok hs
        /\ (~ In (dt_date now) hs ->
            b_is_stock_market_open us_holidays now =
            Ok (negb (time_ltb (dt_time now) (Time 9 30 0 0))
                && negb (time_ltb (Time 16 0 0 0) (dt_time now))))).
Proof.
  unfold b_is_stock_market_open. split.
  - intros W. replace (4 <? weekday (dt_date now)) with true; [reflexivity|].
    symmetry. apply Z.ltb_lt. lia.
  - intros W T.
    assert (E : forallb in_table (normalize (YInt (year (dt_date now)))) = true)
      by (cbn [normalize forallb]; now rewrite T).
    eexists. split; [apply us_market_holidays_ok; exact E|]. intros _.
    replace (4 <? weekday (dt_date now)) with false
      by (symmetry; apply Z.ltb_ge; lia).
    rewrite us_market_holidays_ok by exact E. cbn [bind]. rewrite py_in_str_dates.
    destruct (time_ltb (dt_time now) (Time 9 30 0 0)); [reflexivity|].
    destruct (time_ltb (Time 16 0 0 0) (dt_time now)); reflexivity.
Qed.

(** C2 fails on the code.  At 10:00 on Good Friday 2021, a date of the
    list [us_market_holidays] returns for 2021, [b_is_stock_market_open]
    returns true: the text of the date is looked for among date
    objects, and is equal to none. *)
Theorem b_is_stock_market_open_on_good_friday :
  let now := DT (ymd2ord 2021 4 2) (Time 10 0 0 0) in
  strftime (dt_date now) = "2021-04-02"%string
  /\ (exists hs,
        us_market_holidays us_holidays (YInt (year (dt_date now))) = Ok hs
        /\ In (dt_date now) hs)
  /\ b_is_stock_market_open us_holidays now = Ok true.
Proof.
  cbv zeta. split; [reflexivity|].
  change (year (dt_date (DT (ymd2ord 2021 4 2) (Time 10 0 0 0)))) with 2021.
  pose proof (us_market_holidays_ok us_holidays (YInt 2021) eq_refl) as E.
  split.
  - eexists. split; [exact E|]. apply in_or_app. right. apply in_or_app. right.
    left. reflexivity.
  - unfold b_is_stock_market_open.
    change (year (dt_date (DT (ymd2ord 2021 4 2) (Time 10 0 0 0)))) with 2021.
    rewrite E. cbn [bind]. rewrite py_in_str_dates. reflexivity.
Qed.

End MarketHolidayClaims.

(** ** [get_next_stock_market_days] *)

(** The days of the years of the table. *)
Lemma year_in_table (d : date) :
  first_day <= d <= final_day -> in_table (year d) = true.
Proof.
  change first_day with 733773. change final_day with 741442.
  intros H. apply in_table_spec. unfold year, ord2ymd.
  repeat match goal with
         | |- context [Z.eqb ?a 4] => destruct (Z.eqb_spec a 4)
         end; cbn [orb];
    repeat match goal with
           | |- context [if ?b then _ else _] => destruct b
           end; cbn [fst snd]; Z.div_mod_to_equations; lia.
Qed.

Lemma StronglySorted_snoc {A : Type} (R : A -> A -> Prop) (l : list A) (x : A) :
  StronglySorted R l -> Forall (fun a => R a x) l -> StronglySorted R (l ++ [x]).
Proof.
  induction 1 as [|a l S IH F]; intros Hx.
  - cbn. constructor; constructor.
  - inversion Hx as [|? ? Ra Hl]; subst. cbn. constructor.
    + now apply IH.
    + apply Forall_app. split; [assumption | now constructor].
Qed.


Section NextDays.

Variable us_holidays : list Z -> holiday_dict.

(** A turn that does not raise moves one day on, keeps the clock value,
    and keeps the new day exactly when it is not a Saturday or Sunday. *)
Lemma loop_body_ok (st st' : loop_state) :
  loop_body us_holidays st = Ok st' ->
  let d := dt_date (last_stock_day st) + 1 in
  MINORD <= d <= MAXORD
  /\ last_stock_day st' = DT d (dt_time (last_stock_day st))
  /\ ((4 < weekday d /\ n_days st' = n_days st
       /\ l_pred_days st' = l_pred_days st)
      \/ (weekday d <= 4 /\ n_days st' = n_days st + 1
          /\ l_pred_days st' = l_pred_days st ++ [last_stock_day st'])).
Proof.
  unfold loop_body, add_days, date_add_days. cbv zeta.
  destruct (Z.leb_spec MINORD (dt_date (last_stock_day st) + 1));
    [|discriminate].
  destruct (Z.leb_spec (dt_date (last_stock_day st) + 1) MAXORD);
    [|discriminate].
  cbn [andb bind dt_date].
  match goal with |- context [bind ?c _] => destruct c as [[ys hs]|]; [|discriminate] end.
  cbn [bind]. rewrite py_in_str_dates.
  destruct (Z.ltb_spec 4 (weekday (dt_date (last_stock_day st) + 1)));
    intros [= <-]; cbn [last_stock_day n_days l_pred_days];
    (split; [lia|]); (split; [reflexivity|]); [left | right]; auto.
Qed.

Lemma loop_body_eq (st : loop_state) :
  first_day <= dt_date (last_stock_day st) + 1 <= final_day ->
  loop_body us_holidays st = Ok (next_state us_holidays st).
Proof.
  intros H. unfold loop_body, next_state, add_days, date_add_days.
  assert (B : MINORD <= dt_date (last_stock_day st) + 1 <= MAXORD).
  { revert H. change first_day with 733773. change final_day with 741442.
    unfold MINORD, MAXORD. lia. }
  destruct B as [B1 B2]. apply Z.leb_le in B1, B2. rewrite B1, B2.
  cbn [andb bind dt_date].
  rewrite us_market_holidays_ok
    by (cbn [normalize forallb]; rewrite (year_in_table _ H); reflexivity).
  cbn [normalize flat_map map]. rewrite app_nil_r.
  destruct (int_in _ _); cbn [negb bind]; rewrite py_in_str_dates;
    destruct (4 <? _); reflexivity.
Qed.



Lemma loop_inv_step (start : datetime) (n : Z) (st st' : loop_state) :
  loop_inv start n st -> n_days st < n -> loop_body us_holidays st = Ok st' ->
  loop_inv start n st'.
Proof.
  intros (T & D & N & Le & Srt & F) Lt E.
  apply loop_body_ok in E as (_ & L & C). cbv zeta in *.
  unfold loop_inv. rewrite L. cbn [dt_time dt_date].
  assert (F' : Forall (fun x => good_day start x
                 /\ dt_date x <= dt_date (last_stock_day st) + 1) (l_pred_days st)).
  { eapply Forall_impl; [|exact F]. cbv beta. intros x [G B]. split; [exact G | lia]. }
  destruct C as [(W & -> & ->)|(W & -> & ->)].
  - repeat split; try assumption; clear F F'; lia.
  - rewrite L. repeat split; try assumption.
    + clear F F'; lia.
    + rewrite length_app. cbn [List.length]. clear F F'; lia.
    + clear F F'; lia.
    + apply StronglySorted_snoc; [assumption|].
      eapply Forall_impl; [|exact F]. cbv beta. intros x [_ B].
      left. cbn [dt_date]. clear F F'; lia.
    + apply Forall_app. split; [assumption|]. constructor; [|constructor].
      cbn [dt_date]. split; [|apply Z.le_refl]. unfold good_day.
      cbn [dt_date dt_time].
      repeat split; [left; cbn [dt_date]; clear F F'; lia | assumption | assumption].
Qed.



Lemma turns_left_succ (d : date) :
  d <= MAXORD -> turns_left d = S (turns_left (d + 1)).
Proof. intros H. unfold turns_left. lia. Qed.


(** On Thursday 2021-04-01 the next day the function predicts is Good
    Friday, whatever the holiday source. *)
Lemma next_day_is_good_friday (t : time) :
  get_next_stock_market_days us_holidays (DT (ymd2ord 2021 4 1) t) 1 =
  Some (Ok [DT (ymd2ord 2021 4 2) t]).
Proof.
  unfold get_next_stock_market_days. cbn [dt_date].
  rewrite turns_left_succ by (vm_compute; discriminate).
  cbn [while_loop n_days]. change (0 <? 1) with true. cbv iota.
  rewrite loop_body_eq by (vm_compute; split; discriminate).
  unfold next_state. cbn [last_stock_day dt_date dt_time n_days l_pred_days].
  change (ymd2ord 2021 4 1 + 1) with (ymd2ord 2021 4 2).
  change (4 <? weekday (ymd2ord 2021 4 2)) with false. cbv iota.
  destruct (turns_left _); reflexivity.
Qed.

End NextDays.

(** ** [get_last_time_market_was_open] *)

Section LastOpen.

Variable us_holidays_contains : string -> bool.

Lemma last_open_spec (fuel : nat) :
  forall dt,
    MINORD <= dt_date dt <= MAXORD ->
    dt_date dt < Z.of_nat fuel ->
    exists res,
      last_open us_holidays_contains fuel dt = Some res
      /\ last_open_outcome us_holidays_contains (dt_date dt) (dt_time dt) res.
Proof.
  induction fuel as [|fuel IH]; intros dt V F; [unfold MINORD in V; lia|].
  assert (Back : forall x,
             MINORD <= dt_date x <= MAXORD -> dt_date x < Z.of_nat (S fuel) ->
             exists res,
               match add_days x (-1) with
               | Raise e => Some (Raise e)
               | Ok dt' => last_open us_holidays_contains fuel dt'
               end = Some res
               /\ last_open_outcome us_holidays_contains (dt_date x - 1) (dt_time x) res).
  { intros x Vx Fx. unfold add_days, date_add_days.
    replace (dt_date x + -1 <=? MAXORD) with true
      by (symmetry; apply Z.leb_le; lia).
    destruct (Z.leb_spec MINORD (dt_date x + -1)) as [B|B]; cbn [andb bind].
    - destruct (IH (DT (dt_date x + -1) (dt_time x))) as [res [E O]];
        cbn [dt_date]; try lia.
      exists res. split; [exact E|]. cbn [dt_date dt_time] in O.
      replace (dt_date x - 1) with (dt_date x + -1) by lia. exact O.
    - eexists. split; [reflexivity|]. split; [reflexivity|]. intros y Hy. lia. }
  cbn [last_open]. cbv zeta.
  destruct (Z.ltb_spec 4 (weekday (dt_date dt))) as [W|W].
  - destruct (Back dt V F) as [res [-> O]]. destruct res as [r1|e].
    + destruct O as (T1 & O1 & B1 & N1). destruct (O1) as [_ ->].
      eexists. split; [reflexivity|]. cbn [last_open_outcome replace_hms dt_date dt_time].
      rewrite T1. cbn [microsecond]. repeat split; try apply O1; try lia.
      intros x Hx [Wx Cx]. destruct (Z.eq_dec x (dt_date dt)) as [->|Nx]; [lia|].
      apply (N1 x); [lia|]. split; assumption.
    + destruct O as [-> N1]. eexists. split; [reflexivity|].
      split; [reflexivity|]. intros x Hx [Wx Cx].
      destruct (Z.eq_dec x (dt_date dt)) as [->|Nx]; [lia|].
      apply (N1 x); [lia|]. split; assumption.
  - destruct (us_holidays_contains (strftime (dt_date dt))) eqn:C.
    + destruct (Back dt V F) as [res [-> O]]. destruct res as [r2|e].
      * destruct O as (T2 & O2 & B2 & N2).
        eexists. split; [reflexivity|].
        cbn [last_open_outcome replace_hms dt_date dt_time].
        rewrite T2. cbn [microsecond]. repeat split; try apply O2; try lia.
        intros x Hx [Wx Cx]. destruct (Z.eq_dec x (dt_date dt)) as [->|Nx];
          [congruence|].
        apply (N2 x); [lia|]. split; assumption.
      * destruct O as [-> N2]. eexists. split; [reflexivity|].
        split; [reflexivity|]. intros x Hx [Wx Cx].
        destruct (Z.eq_dec x (dt_date dt)) as [->|Nx]; [congruence|].
        apply (N2 x); [lia|]. split; assumption.
    + eexists. split; [reflexivity|].
      cbn [last_open_outcome replace_hms dt_date dt_time].
      repeat split; try assumption; try lia.
Qed.

(** C8, as the code has it.  From a timestamp with a date Python can
    hold, [get_last_time_market_was_open] always ends.  When some day
    up to the date of the timestamp is a weekday the holiday calendar
    does not hold, it returns the last such day, which it reaches a day
    at a time, with hour 21, minute 0, second 0 and the microsecond of
    the timestamp it was given. *)
Theorem get_last_time_market_was_open_spec (dt : datetime) :
  MINORD <= dt_date dt <= MAXORD ->
  (exists res, get_last_time_market_was_open us_holidays_contains dt = Some res)
  /\ ((exists o, MINORD <= o <= dt_date dt /\ open_day us_holidays_contains o) ->
      exists r,
        get_last_time_market_was_open us_holidays_contains dt = Some (Ok r)
        /\ dt_time r = Time 21 0 0 (microsecond (dt_time dt))
        /\ weekday (dt_date r) <= 4
        /\ us_holidays_contains (strftime (dt_date r)) = false
        /\ dt_date r <= dt_date dt
        /\ (forall x, dt_date r < x <= dt_date dt -> ~ open_day us_holidays_contains x)).
Proof.
  intros V. unfold get_last_time_market_was_open.
  destruct (last_open_spec (depth_left (dt_date dt)) dt V) as [res [E O]].
  { unfold depth_left. unfold MINORD in V. lia. }
  split; [eauto|]. intros [o [Bo Oo]]. destruct res as [r|e].
  - destruct O as (T & [Wr Cr] & B & N). exists r. repeat split; try assumption. lia.
  - destruct O as [_ N]. exfalso. apply (N o); assumption.
Qed.

End LastOpen.

(** ** The functions on the sample calendar *)

(** C1 fails on the code.  The day predicted after Thursday 2021-04-01
    is Good Friday 2021-04-02, a date of the list [us_market_holidays]
    returns for 2021 whatever the holiday source; and on the sample
    calendar the day predicted after Friday 2021-07-02 is Monday
    2021-07-05, the day Independence Day is observed and a date of that
    list: the text of the date is looked for among date objects. *)
Theorem get_next_stock_market_days_keeps_holidays :
  (forall (us_holidays : list Z -> holiday_dict) (t : time),
      get_next_stock_market_days us_holidays (at_time 2021 4 1 t) 1 =
      Some (Ok [at_time 2021 4 2 t])
      /\ exists hs,
          us_market_holidays us_holidays (YInt 2021) = Ok hs
          /\ In (ymd2ord 2021 4 2) hs)
  /\ (get_next_stock_market_days Sample.us_holidays
        (at_time 2021 7 2 (Time 12 0 0 0)) 1 =
      Some (Ok [at_time 2021 7 5 (Time 12 0 0 0)])
      /\ dict_get (Sample.us_holidays [2021]) (ymd2ord 2021 7 5) =
         Ok "Independence Day (Observed)"%string
      /\ exists hs,
          us_market_holidays Sample.us_holidays (YInt 2021) = Ok hs
          /\ In (ymd2ord 2021 7 5) hs).
Proof.
  split.
  - intros us_holidays t. split; [apply next_day_is_good_friday|].
    eexists. split; [apply us_market_holidays_ok; reflexivity|].
    apply in_or_app. right. apply in_or_app. right. left. reflexivity.
  - split; [vm_compute; reflexivity|]. split; [vm_compute; reflexivity|].
    eexists. split; [vm_compute; reflexivity|]. cbn. tauto.
Qed.

(** The five days predicted after Friday 2021-07-02 start with the
    holiday. *)
Example next_five_days_after_july_2 :
  get_next_stock_market_days Sample.us_holidays (at_time 2021 7 2 (Time 12 0 0 0)) 5 =
  Some (Ok (map (fun d => at_time 2021 7 d (Time 12 0 0 0)) [5; 6; 7; 8; 9])).
Proof. vm_compute. reflexivity. Qed.



(** The year 999 does not reach the Good Friday table: the claim C7 as
    it was stated does not hold there. *)
Lemma us_market_holidays_999 :
  ~ 2010 <= 999 <= 2030
  /\ us_market_holidays Sample.us_holidays (YInt 999) = Raise ValueError
  /\ us_market_holidays Sample.us_holidays (YInt 999) <> Raise KeyError.
Proof.
  split; [lia|]. split; [vm_compute; reflexivity | vm_compute; discriminate].
Qed.

Lemma us_market_holidays_outside_table_witness :
  us_market_holidays Sample.us_holidays (YList [2021; 2031]) = Raise KeyError.
Proof.
  apply (us_market_holidays_outside_table Sample.us_holidays (YList [2021; 2031]) 2031).
  - cbn. tauto.
  - lia.
Defined.

Lemma us_market_holidays_new_year_witness :
  exists hs,
    us_market_holidays Sample.us_holidays (YList [2022; 2023]) = Ok hs
    /\ ~ In (new_year 2022) hs.
Proof.
  destruct (us_market_holidays_new_year Sample.us_holidays (YList [2022; 2023]) 2022)
    as (hs & E & _ & Sat & _).
  - reflexivity.
  - cbn. tauto.
  - exists hs. split; [exact E|]. apply Sat; [reflexivity|].
    vm_compute. intros H. repeat destruct H as [H|H]; try discriminate H. exact H.
Defined.

(** January 1 of 2023 is a Sunday: both it and Monday January 2 are
    returned. *)
Example us_market_holidays_2023 :
  exists hs,
    us_market_holidays Sample.us_holidays (YInt 2023) = Ok hs
    /\ In (ymd2ord 2023 1 1) hs /\ In (ymd2ord 2023 1 2) hs.
Proof.
  eexists. split; [vm_compute; reflexivity|]. split; cbn; tauto.
Qed.

Lemma us_market_holidays_good_friday_witness :
  exists text d front,
    table_get good_fridays 2021 = Ok text
    /\ strptime text = Ok d
    /\ strftime d = text
    /\ us_market_holidays Sample.us_holidays (YInt 2021) = Ok (front ++ [d])
    /\ In d (front ++ [d]).
Proof. apply (us_market_holidays_good_friday Sample.us_holidays 2021). lia. Defined.

(** Tuesday 2021-07-06 is no holiday: open at 10:00. *)
Lemma b_is_stock_market_open_hours_witness :
  b_is_stock_market_open Sample.us_holidays (at_time 2021 7 6 (Time 10 0 0 0)) = Ok true.
Proof.
  destruct (proj2 (b_is_stock_market_open_hours Sample.us_holidays
                     (at_time 2021 7 6 (Time 10 0 0 0)))) as [hs [E K]].
  - vm_compute. discriminate.
  - vm_compute. reflexivity.
  - apply K. vm_compute in E. injection E as <-.
    vm_compute. intros H. repeat destruct H as [H|H]; try discriminate H. exact H.
Defined.

(** Monday 2031-06-02 is no holiday either, and at 10:00 the function
    raises: the claim C4 as it was stated does not hold there. *)
Lemma b_is_stock_market_open_weekday_2031 :
  weekday (ymd2ord 2031 6 2) = 0
  /\ int_in (ymd2ord 2031 6 2) (dict_keys (Sample.us_holidays [2031])) = false
  /\ b_is_stock_market_open Sample.us_holidays (at_time 2031 6 2 (Time 10 0 0 0)) =
     Raise KeyError
  /\ b_is_stock_market_open Sample.us_holidays (at_time 2031 6 2 (Time 10 0 0 0)) <>
     Ok true.
Proof.
  repeat split; try (vm_compute; reflexivity). vm_compute. discriminate.
Qed.

(** The same day at 09:00 and at 16:30, and the Saturday before. *)
Example b_is_stock_market_open_closed :
  b_is_stock_market_open Sample.us_holidays (at_time 2021 7 6 (Time 9 0 0 0)) = Ok false
  /\ b_is_stock_market_open Sample.us_holidays (at_time 2021 7 6 (Time 16 30 0 0)) = Ok false
  /\ b_is_stock_market_open Sample.us_holidays (at_time 2021 7 3 (Time 10 0 0 0)) = Ok false.
Proof. repeat split; vm_compute; reflexivity. Qed.

(** A timestamp with a microsecond comes back with it: the claim C8 as
    it was stated does not hold there. *)
Lemma get_last_time_market_was_open_microsecond :
  get_last_time_market_was_open Sample.us_holidays_contains
    (at_time 2021 7 6 (Time 10 0 0 1)) =
  Some (Ok (at_time 2021 7 6 (Time 21 0 0 1)))
  /\ Time 21 0 0 1 <> Time 21 0 0 0.
Proof. split; [vm_compute; reflexivity | discriminate]. Qed.

Lemma get_last_time_market_was_open_spec_witness :
  exists r,
    get_last_time_market_was_open Sample.us_holidays_contains
      (at_time 2021 7 5 (Time 10 0 0 7)) = Some (Ok r)
    /\ dt_time r = Time 21 0 0 7
    /\ weekday (dt_date r) <= 4
    /\ Sample.us_holidays_contains (strftime (dt_date r)) = false
    /\ dt_date r <= ymd2ord 2021 7 5.
Proof.
  destruct (get_last_time_market_was_open_spec Sample.us_holidays_contains
              (at_time 2021 7 5 (Time 10 0 0 7))) as [_ R].
  - vm_compute. split; discriminate.
  - destruct R as (r & E & T & W & C & B & _).
    + exists (ymd2ord 2021 7 2). split; [vm_compute; split; discriminate|].
      split; [vm_compute; discriminate | vm_compute; reflexivity].
    + exists r. repeat split; assumption.
Defined.

(** From Monday 2021-07-05, the day Independence Day is observed, the
    search goes back over the weekend to Friday. *)
Example get_last_time_market_was_open_july_5 :
  get_last_time_market_was_open Sample.us_holidays_contains
    (at_time 2021 7 5 (Time 10 0 0 0)) =
  Some (Ok (at_time 2021 7 2 (Time 21 0 0 0))).
Proof. vm_compute. reflexivity. Qed.

(** * Further properties of the module *)

Import Helpers.

(** ** [divide_chunks] *)

Section Chunks.

Context {A : Type}.
Variable data : list A.
Variable n : Z.
Hypothesis n_pos : 0 < n.

Lemma slice_length (i : Z) :
  0 <= i ->
  Z.of_nat (List.length (slice data i (i + n))) =
  Z.max 0 (Z.min n (Z.of_nat (List.length data) - i)).
Proof.
  intros Hi. unfold slice. rewrite length_firstn, length_skipn. lia.
Qed.

Lemma chunks_concat (fuel : nat) :
  forall i,
    0 <= i ->
    Z.of_nat (List.length data) - i <= Z.of_nat fuel ->
    List.concat (map (fun j => slice data j (j + n))
              (range_from fuel i (Z.of_nat (List.length data)) n)) =
    skipn (Z.to_nat i) data.
Proof.
  induction fuel as [|fuel IH]; intros i Hi F; cbn [range_from].
  - cbn. symmetry. apply skipn_all2. lia.
  - destruct (Z.ltb_spec i (Z.of_nat (List.length data))) as [Lt|Ge].
    + cbn [map List.concat]. rewrite IH by lia. unfold slice.
      replace (Z.to_nat (i + n)) with (Z.to_nat n + Z.to_nat i)%nat by lia.
      replace (Z.to_nat (i + n - i)) with (Z.to_nat n) by lia.
      rewrite <- skipn_skipn. apply firstn_skipn.
    + cbn. symmetry. apply skipn_all2. lia.
Qed.

Lemma chunks_sizes (fuel : nat) :
  forall i,
    0 <= i ->
    let chunks := map (fun j => slice data j (j + n))
                    (range_from fuel i (Z.of_nat (List.length data)) n) in
    Forall (fun c => 1 <= Z.of_nat (List.length c) <= n) chunks
    /\ (forall k, (S k < List.length chunks)%nat ->
                  Z.of_nat (List.length (nth k chunks [])) = n).
Proof.
  induction fuel as [|fuel IH]; intros i Hi; cbn [range_from].
  - cbn. split; [constructor | intros k Hk; lia].
  - destruct (Z.ltb_spec i (Z.of_nat (List.length data))) as [Lt|Ge].
    + cbv zeta. cbn [map]. destruct (IH (i + n) ltac:(lia)) as [F N]. cbv zeta in F, N.
      split.
      * constructor; [|exact F]. rewrite slice_length by lia. lia.
      * intros k Hk. destruct k as [|k].
        -- cbn [nth]. rewrite slice_length by lia.
           cbn [List.length] in Hk. destruct fuel as [|fuel']; [cbn in Hk; lia|].
           cbn [range_from] in Hk.
           destruct (Z.ltb_spec (i + n) (Z.of_nat (List.length data)));
             [lia | cbn in Hk; lia].
        -- cbn [nth]. apply N. cbn [List.length] in Hk. lia.
    + cbn. split; [constructor | intros k Hk; lia].
Qed.

(** X1. For a positive [n], the chunks of [divide_chunks], put end to
    end, are the data. *)
Theorem divide_chunks_concat :
  exists chunks, divide_chunks data n = Ok chunks /\ List.concat chunks = data.
Proof.
  unfold divide_chunks, range0.
  replace (n =? 0) with false by (symmetry; apply Z.eqb_neq; lia).
  replace (n <? 0) with false by (symmetry; apply Z.ltb_ge; lia).
  cbn [bind]. eexists. split; [reflexivity|].
  rewrite chunks_concat by lia. reflexivity.
Qed.

(** X2. For a positive [n], every chunk of [divide_chunks] holds at
    least one element and at most [n], and every chunk but the last
    holds exactly [n]. *)
Theorem divide_chunks_sizes (chunks : list (list A)) :
  divide_chunks data n = Ok chunks ->
  Forall (fun c => 1 <= Z.of_nat (List.length c) <= n) chunks
  /\ (forall k, (S k < List.length chunks)%nat ->
                Z.of_nat (List.length (nth k chunks [])) = n).
Proof.
  unfold divide_chunks, range0.
  replace (n =? 0) with false by (symmetry; apply Z.eqb_neq; lia).
  replace (n <? 0) with false by (symmetry; apply Z.ltb_ge; lia).
  cbn [bind]. intros [= <-]. apply (chunks_sizes _ 0). lia.
Qed.

End Chunks.

Lemma divide_chunks_concat_witness :
  exists chunks, divide_chunks [1; 2; 3; 4; 5; 6; 7] 3 = Ok chunks
                 /\ List.concat chunks = [1; 2; 3; 4; 5; 6; 7].
Proof. apply (divide_chunks_concat [1; 2; 3; 4; 5; 6; 7] 3). lia. Defined.

Lemma divide_chunks_sizes_witness :
  Forall (fun c => 1 <= Z.of_nat (List.length c) <= 3) [[1; 2; 3]; [4; 5; 6]; [7]]
  /\ (forall k, (S k < 3)%nat ->
                Z.of_nat (List.length (nth k [[1; 2; 3]; [4; 5; 6]; [7]] [])) = 3).
Proof.
  apply (divide_chunks_sizes [1; 2; 3; 4; 5; 6; 7] 3); [lia | reflexivity].
Defined.

(** ** [lett_to_num] and [check_ohlc] *)

Lemma lett_to_num_cons (c : ascii) (w : string) :
  lett_to_num (String c w) = String (lett_char c) (lett_to_num w).
Proof.
  unfold lett_to_num, replacements, lett_char. cbn [fold_left Str.replace_char].
  f_equal.
  destruct (Ascii.eqb_spec c "o") as [->|]; [reflexivity|].
  destruct (Ascii.eqb_spec c "h") as [->|]; [reflexivity|].
  destruct (Ascii.eqb_spec c "l") as [->|]; [reflexivity|].
  destruct (Ascii.eqb_spec c "c") as [->|]; [reflexivity|].
  destruct (Ascii.eqb_spec c "a") as [->|]; reflexivity.
Qed.

Lemma lett_char_idem (c : ascii) : lett_char (lett_char c) = lett_char c.
Proof.
  unfold lett_char.
  destruct (Ascii.eqb_spec c "o") as [->|]; [reflexivity|].
  destruct (Ascii.eqb_spec c "h") as [->|]; [reflexivity|].
  destruct (Ascii.eqb_spec c "l") as [->|]; [reflexivity|].
  destruct (Ascii.eqb_spec c "c") as [->|]; [reflexivity|].
  destruct (Ascii.eqb_spec c "a") as [->|]; [reflexivity|].
  repeat match goal with
         | |- context [Ascii.eqb c ?x] =>
             destruct (Ascii.eqb_spec c x); [contradiction|]
         end.
  reflexivity.
Qed.

(** X3. The five replacements of [lett_to_num], made one after the
    other, come to replacing every character at once: o, h, l, c, a by
    1, 2, 3, 4, 5 and any other character by itself.  So the length of
    the word is kept, and a second pass changes nothing. *)
Theorem lett_to_num_characters (word : string) :
  lett_to_num word = Str.map_chars lett_char word
  /\ String.length (lett_to_num word) = String.length word
  /\ lett_to_num (lett_to_num word) = lett_to_num word.
Proof.
  induction word as [|c w (IH1 & IH2 & IH3)].
  - repeat split.
  - rewrite !lett_to_num_cons. cbn [Str.map_chars String.length].
    rewrite lett_char_idem, IH3, IH2, <- IH1. repeat split.
Qed.

Lemma append_empty (s : string) : (s ++ EmptyString)%string = s.
Proof. induction s as [|c s IH]; cbn; congruence. Qed.

Lemma after_ohlca_split (s : string) :
  exists w, all_chars is_ohlca w = true /\ s = (w ++ after_ohlca s)%string.
Proof.
  induction s as [|c s [w [Hw E]]].
  - exists EmptyString. split; reflexivity.
  - cbn [after_ohlca]. destruct (is_ohlca c) eqn:C.
    + exists (String c w). cbn [all_chars append]. rewrite C, Hw.
      split; [reflexivity | now f_equal].
    + exists EmptyString. split; reflexivity.
Qed.

Lemma after_ohlca_app (w t : string) :
  all_chars is_ohlca w = true ->
  after_ohlca (w ++ t) = after_ohlca t.
Proof.
  induction w as [|c w IH]; intros H; [reflexivity|].
  cbn [all_chars] in H. apply andb_true_iff in H as [C H].
  cbn [append after_ohlca]. rewrite C. now apply IH.
Qed.

(** The texts the pattern of [check_ohlc] matches. *)
Lemma match_ohlca_shape (s : string) :
  match_ohlca s = true
  <-> (exists w, w <> EmptyString /\ all_chars is_ohlca w = true
                 /\ (s = w \/ s = (w ++ newline)%string)).
Proof.
  unfold match_ohlca. split.
  - intros H. destruct s as [|c s]; [discriminate H|].
    destruct (is_ohlca c) eqn:C; [|discriminate H]. cbn [andb] in H.
    destruct (after_ohlca_split s) as [w [Hw E]].
    exists (String c w). split; [discriminate|].
    split; [cbn [all_chars]; now rewrite C, Hw|].
    destruct (after_ohlca s) as [|e [|e' t]] eqn:R; cbn [at_end] in H.
    + left. rewrite E, append_empty. reflexivity.
    + destruct (Ascii.eqb_spec e "010") as [N|]; [|discriminate H].
      right. rewrite E, N. reflexivity.
    + discriminate H.
  - intros [w [Hne [Hw [->| ->]]]]; destruct w as [|c w]; try contradiction;
      cbn [all_chars] in Hw; apply andb_true_iff in Hw as [C Hw];
      cbn [append]; rewrite C; cbn [andb].
    + pose proof (after_ohlca_app w EmptyString Hw) as K.
      rewrite append_empty in K. rewrite K. reflexivity.
    + rewrite after_ohlca_app by assumption. reflexivity.
Qed.

(** X4. [check_ohlc] accepts exactly the texts made of one or more of
    the letters o, h, l, c, a, and these texts followed by one newline;
    it returns an accepted text as it is, and refuses every other text
    with [ArgumentTypeError]. *)
Theorem check_ohlc_accepts (s : string) :
  ((exists w, w <> EmptyString /\ all_chars is_ohlca w = true
              /\ (s = w \/ s = (w ++ newline)%string))
   -> check_ohlc s = Accept s)
  /\ (forall r, check_ohlc s = Accept r ->
                r = s
                /\ exists w, w <> EmptyString /\ all_chars is_ohlca w = true
                             /\ (s = w \/ s = (w ++ newline)%string))
  /\ (check_ohlc s = Accept s
      \/ check_ohlc s = ArgumentTypeError "The type specified is not recognized").
Proof.
  unfold check_ohlc. pose proof (match_ohlca_shape s) as [F B].
  destruct (match_ohlca s).
  - split; [reflexivity|]. split; [|now left].
    intros r [= <-]. split; [reflexivity | now apply F].
  - split; [intros H; now apply B in H|]. split; [discriminate | now right].
Qed.

Lemma check_ohlc_accepts_witness : check_ohlc "ohlc" = Accept "ohlc"%string.
Proof.
  apply (proj1 (check_ohlc_accepts "ohlc")).
  exists "ohlc"%string. split; [discriminate|]. split; [reflexivity | now left].
Defined.

Lemma lett_to_num_ohlca (w : string) :
  all_chars is_ohlca w = true ->
  all_chars (fun c => in_range c "1" "5") (lett_to_num w) = true.
Proof.
  induction w as [|c w IH]; intros H; [reflexivity|].
  cbn [all_chars] in H. apply andb_true_iff in H as [C H].
  rewrite lett_to_num_cons. cbn [all_chars]. rewrite IH by assumption.
  rewrite andb_true_r. unfold is_ohlca in C. unfold lett_char.
  destruct (Ascii.eqb_spec c "o") as [->|]; [reflexivity|].
  destruct (Ascii.eqb_spec c "h") as [->|]; [reflexivity|].
  destruct (Ascii.eqb_spec c "l") as [->|]; [reflexivity|].
  destruct (Ascii.eqb_spec c "c") as [->|]; [reflexivity|].
  destruct (Ascii.eqb_spec c "a") as [->|]; [reflexivity | discriminate C].
Qed.

Lemma lett_to_num_app (w t : string) :
  lett_to_num (w ++ t) = (lett_to_num w ++ lett_to_num t)%string.
Proof.
  induction w as [|c w IH]; [reflexivity|].
  cbn [append]. rewrite !lett_to_num_cons. cbn [append]. now rewrite IH.
Qed.

(** X5. The text [check_ohlc] returns is a word of the letters o, h, l,
    c, a, or such a word and a newline.  [lett_to_num] turns the word
    into as many digits from 1 to 5, and the word with its newline into
    these digits with the newline: the newline is there after
    [lett_to_num] exactly when the accepted text ended with it. *)
Theorem lett_to_num_of_checked (s r : string) :
  check_ohlc s = Accept r ->
  exists w digits,
    w <> EmptyString
    /\ all_chars is_ohlca w = true
    /\ String.length digits = String.length w
    /\ all_chars (fun c => in_range c "1" "5") digits = true
    /\ ((r = w /\ lett_to_num r = digits)
        \/ (r = (w ++ newline)%string /\ lett_to_num r = (digits ++ newline)%string)).
Proof.
  intros H.
  assert (E : r = s).
  { unfold check_ohlc in H. destruct (match_ohlca s); congruence. }
  subst r.
  assert (M : match_ohlca s = true).
  { unfold check_ohlc in H. destruct (match_ohlca s); [reflexivity | discriminate H]. }
  destruct (proj1 (match_ohlca_shape s) M) as [w [Hne [Hw Hs]]].
  exists w, (lett_to_num w). split; [exact Hne|]. split; [exact Hw|].
  split; [|split].
  - clear. induction w as [|c w IH]; [reflexivity|].
    rewrite lett_to_num_cons. cbn [String.length]. now rewrite IH.
  - now apply lett_to_num_ohlca.
  - destruct Hs as [->| ->]; [now left|]. right. split; [reflexivity|].
    now rewrite lett_to_num_app.
Qed.

Lemma lett_to_num_of_checked_witness :
  exists w digits,
    w <> EmptyString
    /\ all_chars is_ohlca w = true
    /\ String.length digits = String.length w
    /\ all_chars (fun c => in_range c "1" "5") digits = true
    /\ (("ohlc"%string = w /\ lett_to_num "ohlc" = digits)
        \/ ("ohlc"%string = (w ++ newline)%string
            /\ lett_to_num "ohlc" = (digits ++ newline)%string)).
Proof. apply (lett_to_num_of_checked "ohlc" "ohlc"). reflexivity. Defined.

(** ** [str_to_bool] *)

Lemma lower_upper_char (c : ascii) :
  Str.lower_char (Str.upper_char c) = Str.lower_char c
  /\ Str.lower_char (Str.lower_char c) = Str.lower_char c.
Proof. destruct c as [[] [] [] [] [] [] [] []]; split; reflexivity. Qed.

Lemma lower_upper (s : string) :
  Str.lower (Str.upper s) = Str.lower s /\ Str.lower (Str.lower s) = Str.lower s.
Proof.
  induction s as [|c s [IH1 IH2]]; [split; reflexivity|].
  unfold Str.lower, Str.upper in *. cbn [Str.map_chars].
  destruct (lower_upper_char c) as [-> ->]. now rewrite IH1, IH2.
Qed.

(** X6. On a text of ASCII characters [str_to_bool] does not look at
    the case of the letters: the text, its upper case and its lower
    case get the same answer or are all refused; and the text [str(b)]
    of a boolean is read back as [b]. *)
Theorem str_to_bool_case (s : string) (b : bool) :
  all_chars is_ascii s = true ->
  str_to_bool (VStr (Str.upper s)) = str_to_bool (VStr s)
  /\ str_to_bool (VStr (Str.lower s)) = str_to_bool (VStr s)
  /\ str_to_bool (VStr (str_of_bool b)) = Ok b.
Proof.
  intros _. unfold str_to_bool. destruct (lower_upper s) as [-> ->].
  repeat split. destruct b; reflexivity.
Qed.

Lemma str_to_bool_case_witness :
  str_to_bool (VStr (Str.upper "Yes")) = str_to_bool (VStr "Yes")
  /\ str_to_bool (VStr (Str.lower "Yes")) = str_to_bool (VStr "Yes")
  /\ str_to_bool (VStr (str_of_bool true)) = Ok true.
Proof. apply (str_to_bool_case "Yes" true). reflexivity. Defined.

(** ** [check_positive_list] *)

Lemma split_on_no_sep (sep : ascii) (s : string) :
  Str.contains_char sep s = false ->
  Str.split_on sep s = [s]
  /\ Str.split_on sep (s ++ String sep EmptyString) = [s; EmptyString].
Proof.
  induction s as [|c s IH]; intros H.
  - cbn. rewrite Ascii.eqb_refl. split; reflexivity.
  - cbn [Str.contains_char] in H. apply orb_false_iff in H as [C H].
    rewrite Ascii.eqb_sym in C. destruct (IH H) as [E1 E2].
    cbn [append Str.split_on]. rewrite C, E1, E2. split; reflexivity.
Qed.

Section PositiveList.

Variable py_int : string -> result Z.

Lemma positive_loop_accept (value : string) (fields : list string) :
  forall acc l,
    positive_loop py_int value fields acc = Accept l ->
    exists l',
      l = (acc ++ l')%list
      /\ Forall2 (fun field k => py_int field = Ok k) fields l'
      /\ Forall (fun k => 0 < k) l'.
Proof.
  induction fields as [|f fields IH]; intros acc l H; cbn [positive_loop] in H.
  - injection H as <-. exists []. rewrite app_nil_r. repeat constructor.
  - destruct (py_int f) as [k|e] eqn:P; [|discriminate H].
    destruct (Z.leb_spec k 0); [discriminate H|].
    destruct (IH _ _ H) as [l' [-> [F2 F]]].
    exists (k :: l'). rewrite <- app_assoc. repeat split; try constructor; assumption.
Qed.

(** X7. A list [check_positive_list] returns holds, in order, the
    integer [int] reads from every field between the commas of the
    text, and every one of them is positive. *)
Theorem check_positive_list_accept (value : string) (l : list Z) :
  check_positive_list py_int value = Accept l ->
  Forall2 (fun field k => py_int field = Ok k) (Str.split_on "," value) l
  /\ Forall (fun k => 0 < k) l.
Proof.
  intros H. destruct (positive_loop_accept _ _ _ _ H) as [l' [-> [F2 F]]].
  split; assumption.
Qed.

(** X18. On a text without a comma [check_positive_list] does what
    [check_positive] does: it returns the one number in a list, or
    fails the same way with the same message. *)
Theorem check_positive_list_single (value : string) :
  Str.contains_char "," value = false ->
  check_positive_list py_int value =
  match check_positive py_int value with
  | Accept k => Accept [k]
  | ArgumentTypeError message => ArgumentTypeError message
  | Uncaught e => Uncaught e
  end.
Proof.
  intros C. unfold check_positive_list, check_positive.
  destruct (split_on_no_sep _ _ C) as [-> _]. cbn [positive_loop].
  destruct (py_int value) as [k|e]; [|reflexivity].
  destruct (k <=? 0); reflexivity.
Qed.

End PositiveList.

(** ** [export_data] *)

Section ExportData.

Variable raises : effect -> bool.

Lemma export_loop_run (full_path : string) (fields : list string) :
  export_loop raises full_path fields =
  run_fields (export_one raises full_path) (filter nonempty fields).
Proof.
  induction fields as [|f fields IH]; [reflexivity|].
  cbn [export_loop filter]. unfold nonempty at 1.
  destruct (String.eqb f EmptyString); cbn [negb run_fields]; [exact IH|].
  destruct (export_one raises full_path f) as [done raised].
  destruct raised; [reflexivity|]. now rewrite IH.
Qed.

Lemma run_fields_returns (body : string -> list effect * bool)
    (fields : list string) :
  snd (run_fields body fields) = false ->
  fst (run_fields body fields) = flat_map (fun f => fst (body f)) fields
  /\ Forall (fun f => snd (body f) = false) fields.
Proof.
  induction fields as [|f fields IH]; cbn [run_fields flat_map].
  - intros _. split; [reflexivity | constructor].
  - destruct (body f) as [done raised] eqn:B. destruct raised; [discriminate|].
    destruct (run_fields body fields) as [more raised'].
    cbn [fst snd] in *. intros R. destruct (IH R) as [-> F].
    split; [reflexivity|]. constructor; [now rewrite B | exact F].
Qed.

Lemma run_fields_raises (body : string -> list effect * bool)
    (fields : list string) :
  snd (run_fields body fields) = true ->
  exists before f after,
    fields = (before ++ f :: after)%list
    /\ Forall (fun f' => snd (body f') = false) before
    /\ snd (body f) = true
    /\ fst (run_fields body fields) =
       (flat_map (fun f' => fst (body f')) before ++ fst (body f))%list.
Proof.
  induction fields as [|f fields IH]; cbn [run_fields flat_map].
  - discriminate.
  - destruct (body f) as [done raised] eqn:B. destruct raised.
    + intros _. exists [], f, fields. rewrite B.
      repeat split. constructor.
    + destruct (run_fields body fields) as [more raised'].
      cbn [fst snd] in *. intros R.
      destruct (IH R) as [before [g [after [-> [F [G ->]]]]]].
      exists (f :: before), g, after. cbn [flat_map app]. rewrite B. cbn [fst].
      repeat split; [|exact G | now rewrite app_assoc].
      constructor; [now rewrite B | exact F].
Qed.

Lemma export_one_raised (full_path exp_type : string) :
  snd (export_one raises full_path exp_type) =
  call_raises raises (export_call full_path exp_type).
Proof.
  unfold export_one. cbv zeta.
  now destruct (call_raises raises (export_call full_path exp_type)).
Qed.

(** X8. [export_data] runs the body of its loop for the fields between
    the commas of [export_type] that are not empty, in order, until a
    writer raises.  The comma added to a type without one adds no
    export, and an empty type exports nothing.  When no exception
    leaves [export_data], no writer has raised and the body has run
    once for every such field; when one does, it is the exception of
    the first field whose writer raises: the bodies of the fields
    before it have run, the call that raised is the last thing done,
    and the fields after it are not looked at. *)
Theorem export_data_fields (export_type full_path : string) :
  export_data raises export_type full_path =
  run_fields (export_one raises full_path)
    (filter nonempty (Str.split_on "," export_type))
  /\ (snd (export_data raises export_type full_path) = false ->
      fst (export_data raises export_type full_path) =
      flat_map (fun f => fst (export_one raises full_path f))
        (filter nonempty (Str.split_on "," export_type))
      /\ Forall (fun f => call_raises raises (export_call full_path f) = false)
           (filter nonempty (Str.split_on "," export_type)))
  /\ (snd (export_data raises export_type full_path) = true ->
      exists before f after,
        filter nonempty (Str.split_on "," export_type) = (before ++ f :: after)%list
        /\ Forall (fun f' => call_raises raises (export_call full_path f') = false)
             before
        /\ call_raises raises (export_call full_path f) = true
        /\ fst (export_data raises export_type full_path) =
           (flat_map (fun f' => fst (export_one raises full_path f')) before
            ++ [export_call full_path f])%list).
Proof.
  assert (E : export_data raises export_type full_path =
              run_fields (export_one raises full_path)
                (filter nonempty (Str.split_on "," export_type))).
  { unfold export_data. destruct (String.eqb_spec export_type EmptyString) as [->|N].
    - reflexivity.
    - destruct (Str.contains_char "," export_type) eqn:C; cbn [negb].
      + apply export_loop_run.
      + rewrite export_loop_run.
        destruct (split_on_no_sep _ _ C) as [-> ->]. cbn [filter].
        destruct (nonempty export_type); cbn [run_fields];
          destruct (export_one raises full_path export_type) as [done [|]];
          reflexivity. }
  rewrite E. split; [reflexivity|]. split.
  - intros R. destruct (run_fields_returns _ _ R) as [-> F].
    split; [reflexivity|].
    eapply Forall_impl; [|exact F]. cbv beta. intros f H.
    now rewrite <- export_one_raised.
  - intros R.
    destruct (run_fields_raises _ _ R) as [before [f [after [S [F [G ->]]]]]].
    exists before, f, after. rewrite export_one_raised in G.
    split; [exact S|]. split; [|split; [exact G|]].
    + eapply Forall_impl; [|exact F]. cbv beta. intros f' H.
      now rewrite <- export_one_raised.
    + unfold export_one at 2. cbv zeta. now rewrite G.
Qed.

(** X9. The test [exp_type in "xlsx"] sends to the Excel writer every
    field that is a piece of the text xlsx: x, l, s, xl, ls, sx, xls,
    lsx and xlsx itself, and no other field. *)
Theorem export_one_excel (full_path exp_type : string) :
  exp_type <> EmptyString ->
  ((exists rest, fst (export_one raises full_path exp_type) =
                 ToExcel (full_path ++ "." ++ exp_type) :: rest)
   <-> In exp_type ["x"; "l"; "s"; "xl"; "ls"; "sx"; "xls"; "lsx"; "xlsx"]%string).
Proof.
  intros N.
  assert (F : (exists rest, fst (export_one raises full_path exp_type) =
                            ToExcel (full_path ++ "." ++ exp_type) :: rest)
              <-> export_call full_path exp_type =
                  ToExcel (full_path ++ "." ++ exp_type)).
  { unfold export_one. cbv zeta.
    destruct (call_raises raises (export_call full_path exp_type)); cbn [fst]; split.
    - intros [rest H]. now injection H.
    - intros ->. eauto.
    - intros [rest H]. now injection H.
    - intros ->. eauto. }
  rewrite F. clear F. split.
  - intros H. unfold export_call in H. cbv zeta in H.
    destruct (String.eqb exp_type "csv"); [discriminate H|].
    destruct (String.eqb exp_type "json"); [discriminate H|].
    destruct (Str.is_substring exp_type "xlsx") eqn:S.
    + clear H.
      destruct exp_type as [|c1 [|c2 [|c3 [|c4 [|c5 t]]]]]; [contradiction|..];
        cbn in S;
        repeat match type of S with
               | context [ascii_dec ?a ?b] => destruct (ascii_dec a b); subst
               end;
        try discriminate S; try congruence; cbn; tauto.
    + destruct (String.eqb exp_type "png"); [discriminate H|].
      destruct (String.eqb exp_type "jpg"); [discriminate H|].
      destruct (String.eqb exp_type "pdf"); [discriminate H|].
      destruct (String.eqb exp_type "svg"); discriminate H.
  - intros H. cbn [In] in H.
    repeat destruct H as [H|H]; try contradiction; subst exp_type; reflexivity.
Qed.

End ExportData.

Lemma export_one_excel_witness :
  (exists rest, fst (export_one (fun _ => false) "/exports/load_20210705_120000" "xls") =
                ToExcel ("/exports/load_20210705_120000" ++ "." ++ "xls") :: rest)
  <-> In "xls"%string ["x"; "l"; "s"; "xl"; "ls"; "sx"; "xls"; "lsx"; "xlsx"]%string.
Proof.
  apply (export_one_excel (fun _ => false) "/exports/load_20210705_120000" "xls").
  discriminate.
Defined.

(** With an Excel writer that refuses the extension x, the type x,csv
    ends at its first field: nothing is saved and no line is printed. *)
Example export_data_writer_raises :
  export_data (fun call => match call with ToExcel _ => true | _ => false end)
    "x,csv" "/exports/load" =
  ([ToExcel "/exports/load.x"], true).
Proof. reflexivity. Qed.

(** With writers that return, the type csv,,png saves two files. *)
Lemma export_data_fields_witness :
  fst (export_data (fun _ => false) "csv,,png" "/exports/load") =
  flat_map (fun f => fst (export_one (fun _ => false) "/exports/load" f))
    (filter nonempty (Str.split_on "," "csv,,png"))
  /\ Forall (fun f => call_raises (fun _ => false)
                       (export_call "/exports/load" f) = false)
       (filter nonempty (Str.split_on "," "csv,,png")).
Proof.
  apply (proj1 (proj2 (export_data_fields (fun _ => false) "csv,,png" "/exports/load"))).
  reflexivity.
Defined.

(** ** [financials_colored_values] under [text_adjustment_len] *)

Lemma strip_ansi_empty (fuel : nat) : strip_ansi fuel EmptyString = EmptyString.
Proof. destruct fuel; reflexivity. Qed.

Lemma strip_ansi_plain (v : string) :
  Str.contains_char ESC v = false ->
  forall fuel t,
    (String.length v <= fuel)%nat ->
    strip_ansi fuel (v ++ t) = (v ++ strip_ansi (fuel - String.length v) t)%string.
Proof.
  induction v as [|c v IH]; intros H fuel t F.
  - cbn [append String.length]. now rewrite Nat.sub_0_r.
  - cbn [Str.contains_char] in H. apply orb_false_iff in H as [C H].
    rewrite Ascii.eqb_sym in C.
    cbn [String.length] in F. destruct fuel as [|fuel]; [lia|].
    cbn [append strip_ansi String.length Nat.sub].
    assert (M : match_ansi (String c (v ++ t)) = None).
    { unfold match_ansi. destruct (v ++ t)%string; [reflexivity|]. now rewrite C. }
    rewrite M. f_equal. apply IH; [assumption | lia].
Qed.

Lemma is_escape_nonempty (code : string) :
  is_escape code -> (1 <= String.length code)%nat.
Proof.
  intros E. destruct code as [|c code]; [|cbn; lia].
  specialize (E EmptyString). discriminate E.
Qed.

Lemma length_append (s t : string) :
  String.length (s ++ t) = (String.length s + String.length t)%nat.
Proof. induction s as [|c s IH]; cbn; congruence. Qed.

(** A plain text between two escapes is what is left of the three. *)
Lemma ansi_sub_wrapped (open close v : string) :
  is_escape open -> is_escape close ->
  Str.contains_char ESC v = false ->
  ansi_sub (open ++ v ++ close) = v.
Proof.
  intros Ho Hc Hv. unfold ansi_sub.
  pose proof (is_escape_nonempty _ Ho) as Lo.
  pose proof (is_escape_nonempty _ Hc) as Lc.
  rewrite !length_append.
  destruct (String.length open) as [|lo] eqn:Eo; [lia|].
  cbn [Nat.add strip_ansi].
  pose proof (Ho (v ++ close)%string) as M.
  destruct (open ++ v ++ close)%string as [|c rest] eqn:T.
  - destruct open; discriminate.
  - rewrite M. rewrite strip_ansi_plain by (assumption || lia).
    pose proof (Hc EmptyString) as Mc. rewrite append_empty in Mc.
    destruct close as [|c' close']; [cbn in Lc; lia|].
    cbn [String.length].
    replace (lo + (String.length v + S (String.length close')) - String.length v)%nat
      with (S (lo + String.length close')) by lia.
    cbn [strip_ansi]. rewrite Mc, strip_ansi_empty. apply append_empty.
Qed.

Lemma ansi_sub_plain (v : string) :
  Str.contains_char ESC v = false -> ansi_sub v = v.
Proof.
  intros H. unfold ansi_sub.
  pose proof (strip_ansi_plain v H (String.length v) EmptyString (le_n _)) as E.
  rewrite append_empty, strip_ansi_empty, append_empty in E. exact E.
Qed.

Section Colors.

Variables YELLOW RED GREEN RESET_ALL : string.
Hypothesis yellow_escape : is_escape YELLOW.
Hypothesis red_escape : is_escape RED.
Hypothesis green_escape : is_escape GREEN.
Hypothesis reset_escape : is_escape RESET_ALL.

(** X10. The colours of [financials_colored_values] take no room under
    [text_adjustment_len]: with colour codes that are ANSI escapes, a
    value that holds no escape character is measured, once coloured, at
    its own length, and the values N/A and nan at the three characters
    of N/A. *)
Theorem colored_value_len (val : string) :
  Str.contains_char ESC val = false ->
  ansi_sub (financials_colored_values YELLOW RED GREEN RESET_ALL val) =
  (if String.eqb val "N/A" || String.eqb val "nan" then "N/A"%string else val)
  /\ text_adjustment_len (financials_colored_values YELLOW RED GREEN RESET_ALL val) =
     Z.of_nat (String.length
                 (if String.eqb val "N/A" || String.eqb val "nan"
                  then "N/A"%string else val)).
Proof.
  intros H.
  assert (E : ansi_sub (financials_colored_values YELLOW RED GREEN RESET_ALL val) =
              (if String.eqb val "N/A" || String.eqb val "nan"
               then "N/A"%string else val)).
  { unfold financials_colored_values.
    destruct (String.eqb val "N/A" || String.eqb val "nan").
    - now apply ansi_sub_wrapped.
    - repeat match goal with
             | |- context [if ?b then _ else _] => destruct b
             end;
        (now apply ansi_sub_wrapped) || (now apply ansi_sub_plain). }
  split; [exact E|]. unfold text_adjustment_len. now rewrite E.
Qed.

End Colors.

(** ** Year, month and day of an ordinal *)

Lemma month_day_ok (n : Z) (leap : bool) :
  0 <= n < 365 ->
  month_day_valid leap (fst (month_day n leap)) (snd (month_day n leap)) = true
  /\ nth (Z.to_nat (fst (month_day n leap))) DAYS_BEFORE_MONTH 0
     + (if (2 <? fst (month_day n leap)) && leap then 1 else 0)
     + snd (month_day n leap) = n + 1.
Proof.
  intros H.
  assert (C : range_forallb 365 0
                (fun n => forallb (fun leap =>
                   month_day_valid leap (fst (month_day n leap)) (snd (month_day n leap))
                   && (nth (Z.to_nat (fst (month_day n leap))) DAYS_BEFORE_MONTH 0
                       + (if (2 <? fst (month_day n leap)) && leap then 1 else 0)
                       + snd (month_day n leap) =? n + 1)) [true; false]) = true)
    by (vm_compute; reflexivity).
  pose proof (range_forallb_spec _ _ _ C n ltac:(lia)) as E. cbv beta in E.
  cbn [forallb] in E.
  apply andb_true_iff in E as [Et E]. apply andb_true_iff in E as [Ef _].
  destruct leap; [apply andb_true_iff in Et as [V S] | apply andb_true_iff in Ef as [V S]];
    apply Z.eqb_eq in S; split; assumption.
Qed.

Lemma days_before_year_cycles (a b c e : Z) :
  0 <= b <= 3 -> 0 <= c <= 24 -> 0 <= e <= 3 ->
  days_before_year (400 * a + 100 * b + 4 * c + e + 1) =
  146097 * a + 36524 * b + 1461 * c + 365 * e.
Proof.
  intros Hb Hc He. unfold days_before_year. cbv zeta.
  Z.div_mod_to_equations. lia.
Qed.

Lemma is_leap_cycles (a b c e : Z) :
  0 <= b <= 3 -> 0 <= c <= 24 -> 0 <= e <= 3 ->
  is_leap (400 * a + 100 * b + 4 * c + e + 1) =
  (e =? 3) && (negb (c =? 24) || (b =? 3)).
Proof.
  intros Hb Hc He. unfold is_leap.
  destruct (Z.eqb_spec e 3), (Z.eqb_spec c 24), (Z.eqb_spec b 3);
    cbn [andb orb negb];
    repeat match goal with
           | |- context [Z.eqb ?x 0] => destruct (Z.eqb_spec x 0)
           end; cbn [andb orb negb]; try reflexivity;
    exfalso; Z.div_mod_to_equations; lia.
Qed.


Lemma last_day_of_leap_year (y : Z) :
  1 <= y <= 9999 -> is_leap y = true ->
  ymd2ord y 12 31 = days_before_year y + 366
  /\ mkdate y 12 31 = Ok (ymd2ord y 12 31).
Proof.
  intros B L. unfold mkdate, ymd2ord, days_before_month, days_in_month, MINYEAR, MAXYEAR.
  rewrite L.
  replace (1 <=? y) with true by (symmetry; apply Z.leb_le; lia).
  replace (y <=? 9999) with true by (symmetry; apply Z.leb_le; lia).
  change (nth (Z.to_nat 12) DAYS_BEFORE_MONTH 0) with 334.
  split; [cbn [Z.ltb Z.compare Pos.compare Pos.compare_cont andb]; lia | reflexivity].
Qed.

Lemma ord2ymd_month_day (d : date) :
  ord2ymd d =
  let n := d - 1 in
  let n400 := n / 146097 in
  let n := n mod 146097 in
  let n100 := n / 36524 in
  let n := n mod 36524 in
  let n4 := n / 1461 in
  let n := n mod 1461 in
  let n1 := n / 365 in
  let n := n mod 365 in
  let year := n400 * 400 + 1 + n100 * 100 + n4 * 4 + n1 in
  if (n1 =? 4) || (n100 =? 4) then (year - 1, 12, 31)
  else
    let leapyear := (n1 =? 3) && (negb (n4 =? 24) || (n100 =? 3)) in
    (year, fst (month_day n leapyear), snd (month_day n leapyear)).
Proof.
  unfold ord2ymd, month_day. cbv zeta.
  destruct (_ || _); [reflexivity|]. destruct (_ <? _); reflexivity.
Qed.

(** The ordinal of the year, month and day of an ordinal is the
    ordinal, and [date] accepts the three. *)
Lemma ymd_of_ordinal (d : date) :
  MINORD <= d <= MAXORD ->
  ymd2ord (year d) (month d) (day d) = d
  /\ mkdate (year d) (month d) (day d) = Ok d.
Proof.
  unfold MINORD, MAXORD. intros H.
  unfold year, month, day. rewrite ord2ymd_month_day. cbv zeta.
  pose proof (Z.div_mod (d - 1) 146097 ltac:(lia)) as D1.
  pose proof (Z.mod_pos_bound (d - 1) 146097 ltac:(lia)) as B1.
  set (a := (d - 1) / 146097) in *. set (r400 := (d - 1) mod 146097) in *.
  pose proof (Z.div_mod r400 36524 ltac:(lia)) as D2.
  pose proof (Z.mod_pos_bound r400 36524 ltac:(lia)) as B2.
  set (b := r400 / 36524) in *. set (r100 := r400 mod 36524) in *.
  pose proof (Z.div_mod r100 1461 ltac:(lia)) as D3.
  pose proof (Z.mod_pos_bound r100 1461 ltac:(lia)) as B3.
  set (c := r100 / 1461) in *. set (r4 := r100 mod 1461) in *.
  pose proof (Z.div_mod r4 365 ltac:(lia)) as D4.
  pose proof (Z.mod_pos_bound r4 365 ltac:(lia)) as B4.
  set (e := r4 / 365) in *. set (r := r4 mod 365) in *.
  clearbody a r400 b r100 c r4 e r.
  assert (Hb : 0 <= b <= 4) by lia.
  assert (Hc : 0 <= c <= 24) by lia.
  assert (He : 0 <= e <= 4) by lia.
  assert (Ha : 0 <= a <= 24) by lia.
  destruct (Z.eqb_spec e 4) as [E4|E4]; [|destruct (Z.eqb_spec b 4) as [B4'|B4']];
    cbn [orb fst snd].
  - (* last day of a leap year, by the cycle of four years *)
    assert (Hc' : c <= 23) by lia.
    replace (a * 400 + 1 + b * 100 + c * 4 + e - 1)
      with (400 * a + 100 * b + 4 * c + 3 + 1) by lia.
    destruct (last_day_of_leap_year (400 * a + 100 * b + 4 * c + 3 + 1)) as [Y M];
      [lia | |].
    { rewrite is_leap_cycles by lia.
      replace (c =? 24) with false by (symmetry; apply Z.eqb_neq; lia). reflexivity. }
    rewrite M, Y, days_before_year_cycles by lia. split; [|f_equal]; lia.
  - (* last day of a cycle of four hundred years *)
    replace (a * 400 + 1 + b * 100 + c * 4 + e - 1)
      with (400 * a + 100 * 3 + 4 * 24 + 3 + 1) by lia.
    destruct (last_day_of_leap_year (400 * a + 100 * 3 + 4 * 24 + 3 + 1)) as [Y M];
      [lia | |].
    { rewrite is_leap_cycles by lia. reflexivity. }
    rewrite M, Y, days_before_year_cycles by lia. split; [|f_equal]; lia.
  - (* any other day *)
    set (leap := (e =? 3) && (negb (c =? 24) || (b =? 3))).
    replace (a * 400 + 1 + b * 100 + c * 4 + e)
      with (400 * a + 100 * b + 4 * c + e + 1) by lia.
    destruct (month_day_ok r leap ltac:(lia)) as [V S].
    assert (O : ymd2ord (400 * a + 100 * b + 4 * c + e + 1)
                  (fst (month_day r leap)) (snd (month_day r leap)) = d).
    { unfold ymd2ord, days_before_month.
      rewrite days_before_year_cycles, is_leap_cycles by lia. fold leap. lia. }
    split; [exact O|].
    unfold mkdate, days_in_month, MINYEAR, MAXYEAR.
    rewrite is_leap_cycles by lia. fold leap. rewrite O.
    unfold month_day_valid in V.
    repeat (apply andb_true_iff in V as [V ?]).
    replace (1 <=? 400 * a + 100 * b + 4 * c + e + 1) with true
      by (symmetry; apply Z.leb_le; lia).
    replace (400 * a + 100 * b + 4 * c + e + 1 <=? 9999) with true
      by (symmetry; apply Z.leb_le; lia).
    repeat match goal with K : _ = true |- _ => rewrite K; clear K end.
    reflexivity.
Qed.

(** ** [valid_date] *)

Section DateText.

Local Open Scope string_scope.

Lemma re_Ymd_padded (c1 c2 c3 c4 : ascii) (m dd : Z) :
  is_digit c1 = true -> is_digit c2 = true ->
  is_digit c3 = true -> is_digit c4 = true ->
  (1 <= m <= 12)%Z -> (1 <= dd <= 31)%Z ->
  re_Ymd (String c1 (String c2 (String c3 (String c4
            (String "-" (zero_pad 2 (str_of_int m)
                         ++ String "-" (zero_pad 2 (str_of_int dd)))))))) =
  Some (1000 * digit_val c1 + 100 * digit_val c2 + 10 * digit_val c3
        + digit_val c4, m, dd, "")%Z.
Proof.
  intros H1 H2 H3 H4 Hm Hd. unfold re_Ymd, re_Y. rewrite H1, H2, H3, H4.
  cbn [andb literal]. change (Ascii.eqb "-" "-") with true. cbv iota.
  assert (Em : m = 1 \/ m = 2 \/ m = 3 \/ m = 4 \/ m = 5 \/ m = 6 \/ m = 7
               \/ m = 8 \/ m = 9 \/ m = 10 \/ m = 11 \/ m = 12) by lia.
  assert (Ed : dd = 1 \/ dd = 2 \/ dd = 3 \/ dd = 4 \/ dd = 5 \/ dd = 6 \/ dd = 7
               \/ dd = 8 \/ dd = 9 \/ dd = 10 \/ dd = 11 \/ dd = 12 \/ dd = 13
               \/ dd = 14 \/ dd = 15 \/ dd = 16 \/ dd = 17 \/ dd = 18 \/ dd = 19
               \/ dd = 20 \/ dd = 21 \/ dd = 22 \/ dd = 23 \/ dd = 24 \/ dd = 25
               \/ dd = 26 \/ dd = 27 \/ dd = 28 \/ dd = 29 \/ dd = 30 \/ dd = 31)
    by lia.
  clear Hm Hd.
  repeat destruct Em as [Em|Em]; subst m;
    repeat destruct Ed as [Ed|Ed]; subst dd; reflexivity.
Qed.

Lemma month_length_le (k : nat) :
  (nth k [0; 31; 28; 31; 30; 31; 30; 31; 31; 30; 31; 30; 31] 0 <= 31)%Z.
Proof. do 13 (destruct k as [|k]; [cbn [nth]; lia|]). destruct k; cbn [nth]; lia. Qed.

Lemma mkdate_fields (y m dd : Z) (d : date) :
  mkdate y m dd = Ok d ->
  (1 <= y <= 9999 /\ 1 <= m <= 12 /\ 1 <= dd <= 31)%Z.
Proof.
  unfold mkdate, MINYEAR, MAXYEAR, days_in_month. intros H.
  match type of H with
  | (if ?c then _ else _) = _ => destruct c eqn:C; [|discriminate H]
  end.
  repeat (apply andb_true_iff in C as [C ?]).
  repeat match goal with
         | K : (_ <=? _)%Z = true |- _ => apply Z.leb_le in K
         end.
  pose proof (month_length_le (Z.to_nat m)).
  destruct ((m =? 2)%Z && is_leap y); lia.
Qed.

(** X11. [valid_date] reads back the text [strftime] writes with
    [%Y-%m-%d] for a date of the year 1000 or later: it returns that
    date, at midnight. *)
Theorem valid_date_strftime (d : date) :
  (MINORD <= d <= MAXORD)%Z ->
  (1000 <= year d)%Z ->
  valid_date (strftime d) = Accept (DT d midnight).
Proof.
  intros V Y. destruct (ymd_of_ordinal d V) as [_ M].
  destruct (mkdate_fields _ _ _ _ M) as (By & Bm & Bd).
  unfold valid_date, strptime, strftime.
  rewrite (str_of_int_four (year d)) by lia.
  unfold zero_pad at 1. cbn [String.length Nat.sub zeros append].
  destruct (mod10_digit (year d / 10 / 10 / 10)) as [D1 V1].
  destruct (mod10_digit (year d / 10 / 10)) as [D2 V2].
  destruct (mod10_digit (year d / 10)) as [D3 V3].
  destruct (mod10_digit (year d)) as [D4 V4].
  rewrite (re_Ymd_padded _ _ _ _ _ _ D1 D2 D3 D4 Bm Bd), V1, V2, V3, V4.
  replace (1000 * (year d / 10 / 10 / 10 mod 10) + 100 * (year d / 10 / 10 mod 10)
           + 10 * (year d / 10 mod 10) + year d mod 10)%Z with (year d)
    by (Z.div_mod_to_equations; lia).
  rewrite M. reflexivity.
Qed.

End DateText.

Lemma valid_date_strftime_witness :
  valid_date (strftime (ymd2ord 2021 7 4)) = Accept (DT (ymd2ord 2021 7 4) midnight).
Proof.
  apply (valid_date_strftime (ymd2ord 2021 7 4)).
  - vm_compute. split; discriminate.
  - vm_compute. discriminate.
Defined.

(** ** More on the calendar functions *)

Section CalendarEdges.

Variable us_holidays : list Z -> holiday_dict.

(** X12. In a year outside 2010 to 2030 [b_is_stock_market_open] gives
    no answer on a weekday: it raises the exception of
    [us_market_holidays], [KeyError] for a year of four digits; on a
    Saturday or a Sunday of such a year it answers false. *)
Theorem b_is_stock_market_open_outside_table (now : datetime) :
  in_table (year (dt_date now)) = false ->
  (weekday (dt_date now) <= 4 ->
   b_is_stock_market_open us_holidays now =
   Raise (if four_digits (year (dt_date now)) then KeyError else ValueError))
  /\ (weekday (dt_date now) = 5 \/ weekday (dt_date now) = 6 ->
      b_is_stock_market_open us_holidays now = Ok false).
Proof.
  intros T. unfold b_is_stock_market_open. split; intros W.
  - replace (4 <? weekday (dt_date now)) with false
      by (symmetry; apply Z.ltb_ge; lia).
    rewrite us_market_holidays_raise by (cbn [normalize forallb]; now rewrite T).
    cbn [normalize forallb bind]. now rewrite andb_true_r.
  - replace (4 <? weekday (dt_date now)) with true; [reflexivity|].
    symmetry. apply Z.ltb_lt. lia.
Qed.

(** X13. With [n_next_days] at least 1, [get_next_stock_market_days]
    raises at its first step when the day after the start is in a year
    outside 2010 to 2030 ([KeyError] for a year of four digits), and
    raises [OverflowError] when the start is the last day Python can
    hold, 9999-12-31. *)
Theorem get_next_stock_market_days_first_step (start : datetime) (n : Z) :
  0 < n ->
  MINORD <= dt_date start <= MAXORD ->
  (dt_date start < MAXORD ->
   in_table (year (dt_date start + 1)) = false ->
   get_next_stock_market_days us_holidays start n =
   Some (Raise (if four_digits (year (dt_date start + 1))
                then KeyError else ValueError)))
  /\ (dt_date start = MAXORD ->
      get_next_stock_market_days us_holidays start n = Some (Raise OverflowError)).
Proof.
  intros N V. unfold get_next_stock_market_days.
  rewrite turns_left_succ by lia. cbn [while_loop n_days].
  replace (0 <? n) with true by (symmetry; apply Z.ltb_lt; lia).
  unfold loop_body, add_days, date_add_days. cbn [last_stock_day].
  split.
  - intros B T.
    replace (MINORD <=? dt_date start + 1) with true
      by (symmetry; apply Z.leb_le; lia).
    replace (dt_date start + 1 <=? MAXORD) with true
      by (symmetry; apply Z.leb_le; lia).
    cbn [andb bind dt_date years_seen int_in existsb negb].
    rewrite us_market_holidays_raise by (cbn [normalize forallb]; now rewrite T).
    cbn [normalize forallb bind]. now rewrite andb_true_r.
  - intros E.
    replace (dt_date start + 1 <=? MAXORD) with false
      by (symmetry; apply Z.leb_gt; lia).
    rewrite andb_false_r. reflexivity.
Qed.

(** The loop skips no weekday. *)
Lemma while_loop_complete (start : datetime) (n : Z) (fuel : nat) :
  forall st l,
    loop_inv start n st ->
    (forall x, dt_date start < x <= dt_date (last_stock_day st) ->
               weekday x <= 4 -> In (DT x (dt_time start)) (l_pred_days st)) ->
    while_loop us_holidays fuel n st = Some (Ok l) ->
    forall x y, In y l -> dt_date start < x <= dt_date y -> weekday x <= 4 ->
                In (DT x (dt_time start)) l.
Proof.
  induction fuel as [|fuel IH]; intros st l I J E; cbn [while_loop] in E;
    destruct (Z.ltb_spec (n_days st) n) as [Lt|Ge]; try discriminate E.
  - injection E as <-. intros x y Hy Hx W. apply J; [|exact W].
    destruct I as (_ & _ & _ & _ & _ & F).
    rewrite Forall_forall in F. destruct (F y Hy) as [_ B]. clear F J. lia.
  - destruct (loop_body us_holidays st) as [st'|e] eqn:B; [|discriminate E].
    apply (IH st' l); [now apply (loop_inv_step us_holidays start n st) | | exact E].
    destruct I as (T & _). clear IH E.
    apply loop_body_ok in B as (_ & L & C). cbv zeta in L, C.
    rewrite L. cbn [dt_date]. intros x Hx W.
    destruct (Z.eq_dec x (dt_date (last_stock_day st) + 1)) as [->|Nx].
    + destruct C as [(W' & _)|(_ & _ & ->)]; [lia|].
      apply in_or_app. right. left. rewrite L, T. reflexivity.
    + assert (K : In (DT x (dt_time start)) (l_pred_days st)) by (apply J; [lia | exact W]).
      destruct C as [(_ & _ & ->)|(_ & _ & ->)]; [exact K|].
      apply in_or_app. now left.
  - injection E as <-. intros x y Hy Hx W. apply J; [|exact W].
    destruct I as (_ & _ & _ & _ & _ & F).
    rewrite Forall_forall in F. destruct (F y Hy) as [_ B]. clear F J. lia.
Qed.

(** X14. [get_next_stock_market_days] skips no weekday: every day from
    Monday to Friday between the start and a timestamp of the list it
    returns is itself in the list, with the clock value of the start,
    whether the day is a market holiday or not. *)
Theorem get_next_stock_market_days_complete (start : datetime) (n : Z)
    (l : list datetime) :
  get_next_stock_market_days us_holidays start n = Some (Ok l) ->
  forall x y, In y l -> dt_date start < x <= dt_date y -> weekday x <= 4 ->
              In (DT x (dt_time start)) l.
Proof.
  unfold get_next_stock_market_days. intros E.
  destruct (Z.ltb_spec 0 n) as [N|N].
  - apply (while_loop_complete start n _ _ l) with (3 := E).
    + unfold loop_inv. cbn [last_stock_day n_days l_pred_days List.length Z.of_nat].
      repeat split; try constructor; lia.
    + cbn [last_stock_day]. intros x Hx. lia.
  - destruct (turns_left (dt_date start)); cbn [while_loop n_days l_pred_days] in E;
      replace (0 <? n) with false in E by (symmetry; apply Z.ltb_ge; lia);
      injection E as <-; intros x y [].
Qed.

End CalendarEdges.

Section LastOpenMore.

Variable us_holidays_contains : string -> bool.

Lemma get_last_outcome (dt : datetime) (r : datetime) :
  MINORD <= dt_date dt <= MAXORD ->
  get_last_time_market_was_open us_holidays_contains dt = Some (Ok r) ->
  last_open_outcome us_holidays_contains (dt_date dt) (dt_time dt) (Ok r).
Proof.
  intros V E. unfold get_last_time_market_was_open in E.
  destruct (last_open_spec us_holidays_contains (depth_left (dt_date dt)) dt V)
    as [res [E' O]].
  { unfold depth_left. unfold MINORD in V. lia. }
  rewrite E in E'. injection E' as <-. exact O.
Qed.

(** X15. [get_last_time_market_was_open] stays on what it returns: the
    timestamp it returns, given back to it, is returned unchanged. *)
Theorem get_last_time_market_was_open_fixpoint (dt r : datetime) :
  MINORD <= dt_date dt <= MAXORD ->
  get_last_time_market_was_open us_holidays_contains dt = Some (Ok r) ->
  get_last_time_market_was_open us_holidays_contains r = Some (Ok r).
Proof.
  intros V E. destruct (get_last_outcome dt r V E) as (T & O & B & _).
  assert (Vr : MINORD <= dt_date r <= MAXORD) by lia.
  unfold get_last_time_market_was_open.
  destruct (last_open_spec us_holidays_contains (depth_left (dt_date r)) r Vr)
    as [res [E' O']].
  { unfold depth_left. unfold MINORD in Vr. lia. }
  rewrite E'. destruct res as [r'|e].
  - destruct O' as (T' & Oo & B' & N').
    assert (D : dt_date r' = dt_date r).
    { destruct (Z.eq_dec (dt_date r') (dt_date r)) as [|Ne]; [assumption|].
      exfalso. apply (N' (dt_date r)); [lia | exact O]. }
    do 2 f_equal. destruct r' as [d' t'], r as [d t]. cbn [dt_date dt_time] in *.
    subst d'. rewrite T', T. reflexivity.
  - destruct O' as [_ N']. exfalso. apply (N' (dt_date r)); [lia | exact O].
Qed.

(** X16. [get_last_time_market_was_open] keeps the order of days: from
    a later timestamp it never returns an earlier day. *)
Theorem get_last_time_market_was_open_monotone (dt1 dt2 r1 r2 : datetime) :
  MINORD <= dt_date dt1 ->
  dt_date dt1 <= dt_date dt2 ->
  dt_date dt2 <= MAXORD ->
  get_last_time_market_was_open us_holidays_contains dt1 = Some (Ok r1) ->
  get_last_time_market_was_open us_holidays_contains dt2 = Some (Ok r2) ->
  dt_date r1 <= dt_date r2.
Proof.
  intros V1 Le V2 E1 E2.
  destruct (get_last_outcome dt1 r1 ltac:(lia) E1) as (_ & O1 & B1 & _).
  destruct (get_last_outcome dt2 r2 ltac:(lia) E2) as (_ & _ & _ & N2).
  destruct (Z.le_gt_cases (dt_date r1) (dt_date r2)) as [|Gt]; [assumption|].
  exfalso. apply (N2 (dt_date r1)); [lia | exact O1].
Qed.

End LastOpenMore.

Section Agreement.

Variable us_holidays : list Z -> holiday_dict.

Lemma us_market_holidays_returns (y : Z) (hs : list date) :
  us_market_holidays us_holidays (YInt y) = Ok hs -> in_table y = true.
Proof.
  intros E. destruct (in_table y) eqn:T; [reflexivity|].
  rewrite us_market_holidays_raise in E by (cbn [normalize forallb]; now rewrite T).
  discriminate E.
Qed.

(** A turn that does not raise is a turn to a year of the table. *)
Lemma loop_body_year (st st' : loop_state) :
  loop_body us_holidays st = Ok st' ->
  (forall y, In y (years_seen st) -> in_table y = true) ->
  in_table (year (dt_date (last_stock_day st) + 1)) = true
  /\ (forall y, In y (years_seen st') -> in_table y = true).
Proof.
  unfold loop_body, add_days, date_add_days. intros E K.
  destruct ((MINORD <=? dt_date (last_stock_day st) + 1)
            && (dt_date (last_stock_day st) + 1 <=? MAXORD)); [|discriminate E].
  cbn [bind dt_date] in E.
  set (y0 := year (dt_date (last_stock_day st) + 1)) in *.
  destruct (int_in y0 (years_seen st)) eqn:S; cbn [negb bind] in E.
  - unfold int_in in S. apply existsb_exists in S as [y' [Hy' Ey]].
    apply Z.eqb_eq in Ey. subst y'.
    rewrite py_in_str_dates in E.
    split; [now apply K|].
    destruct (4 <? weekday _); injection E as <-; exact K.
  - destruct (us_market_holidays us_holidays (YInt y0)) as [hs|e] eqn:U;
      [|discriminate E].
    apply us_market_holidays_returns in U. cbn [bind] in E.
    rewrite py_in_str_dates in E.
    assert (K' : forall y, In y (years_seen st ++ [y0]) -> in_table y = true).
    { intros y Hy. apply in_app_or in Hy as [Hy|[<-|[]]]; [now apply K | exact U]. }
    split; [exact U|].
    destruct (4 <? weekday _); injection E as <-; exact K'.
Qed.

Lemma while_loop_years (n : Z) (fuel : nat) :
  forall st l,
    (forall y, In y (years_seen st) -> in_table y = true) ->
    Forall (fun x => weekday (dt_date x) <= 4 /\ in_table (year (dt_date x)) = true)
      (l_pred_days st) ->
    while_loop us_holidays fuel n st = Some (Ok l) ->
    Forall (fun x => weekday (dt_date x) <= 4 /\ in_table (year (dt_date x)) = true) l.
Proof.
  induction fuel as [|fuel IH]; intros st l K F E; cbn [while_loop] in E;
    destruct (n_days st <? n); try discriminate E; try (injection E as <-; exact F).
  destruct (loop_body us_holidays st) as [st'|e] eqn:B; [|discriminate E].
  destruct (loop_body_year st st' B K) as [T K'].
  apply (IH st' l K'); [|exact E].
  apply loop_body_ok in B as (_ & L & C). cbv zeta in L, C.
  destruct C as [(_ & _ & ->)|(W & _ & ->)]; [exact F|].
  apply Forall_app. split; [exact F|]. constructor; [|constructor].
  rewrite L. cbn [dt_date]. split; assumption.
Qed.

(** X17. The two functions agree on the days of trading: on the date of
    every timestamp [get_next_stock_market_days] returns,
    [b_is_stock_market_open] answers, and answers true exactly when the
    time is neither before 09:30:00 nor after 16:00:00. *)
Theorem next_days_are_open_days (start : datetime) (n : Z) (l : list datetime) :
  get_next_stock_market_days us_holidays start n = Some (Ok l) ->
  forall y t,
    In y l ->
    b_is_stock_market_open us_holidays (DT (dt_date y) t) =
    Ok (negb (time_ltb t (Time 9 30 0 0)) && negb (time_ltb (Time 16 0 0 0) t)).
Proof.
  unfold get_next_stock_market_days. intros E y t Hy.
  assert (F : Forall (fun x => weekday (dt_date x) <= 4
                               /\ in_table (year (dt_date x)) = true) l).
  { apply (while_loop_years n _ _ l) with (3 := E); [intros ? [] | constructor]. }
  rewrite Forall_forall in F. destruct (F y Hy) as [W T].
  unfold b_is_stock_market_open. cbn [dt_date dt_time].
  replace (4 <? weekday (dt_date y)) with false by (symmetry; apply Z.ltb_ge; lia).
  rewrite us_market_holidays_ok by (cbn [normalize forallb]; now rewrite T).
  cbn [bind]. rewrite py_in_str_dates.
  destruct (time_ltb t (Time 9 30 0 0)); [reflexivity|].
  destruct (time_ltb (Time 16 0 0 0) t); reflexivity.
Qed.

End Agreement.

(** ** The further properties on concrete inputs *)

Lemma check_positive_list_accept_witness :
  Forall2 (fun field k => SampleInt.py_int field = Ok k)
    (Str.split_on "," "5,10,20") [5; 10; 20]
  /\ Forall (fun k => 0 < k) [5; 10; 20].
Proof.
  apply (check_positive_list_accept SampleInt.py_int "5,10,20" [5; 10; 20]).
  reflexivity.
Defined.

Lemma colorama_escapes :
  is_escape Colorama.Fore_YELLOW /\ is_escape Colorama.Fore_RED
  /\ is_escape Colorama.Fore_GREEN /\ is_escape Colorama.Style_RESET_ALL.
Proof. repeat split; intros rest; reflexivity. Qed.

Lemma colored_value_len_witness :
  ansi_sub (financials_colored_values Colorama.Fore_YELLOW Colorama.Fore_RED
              Colorama.Fore_GREEN Colorama.Style_RESET_ALL "-12.5%") = "-12.5%"%string
  /\ text_adjustment_len
       (financials_colored_values Colorama.Fore_YELLOW Colorama.Fore_RED
          Colorama.Fore_GREEN Colorama.Style_RESET_ALL "-12.5%") = 6.
Proof.
  apply (colored_value_len Colorama.Fore_YELLOW Colorama.Fore_RED
           Colorama.Fore_GREEN Colorama.Style_RESET_ALL
           (proj1 colorama_escapes) (proj1 (proj2 colorama_escapes))
           (proj1 (proj2 (proj2 colorama_escapes)))
           (proj2 (proj2 (proj2 colorama_escapes))) "-12.5%").
  reflexivity.
Defined.

Lemma b_is_stock_market_open_outside_table_witness :
  b_is_stock_market_open Sample.us_holidays (at_time 2009 12 31 (Time 10 0 0 0)) =
  Raise KeyError
  /\ b_is_stock_market_open Sample.us_holidays (at_time 2009 12 26 (Time 10 0 0 0)) =
     Ok false.
Proof.
  split.
  - apply (proj1 (b_is_stock_market_open_outside_table Sample.us_holidays
                    (at_time 2009 12 31 (Time 10 0 0 0)) ltac:(vm_compute; reflexivity))).
    vm_compute. discriminate.
  - apply (proj2 (b_is_stock_market_open_outside_table Sample.us_holidays
                    (at_time 2009 12 26 (Time 10 0 0 0)) ltac:(vm_compute; reflexivity))).
    left. vm_compute. reflexivity.
Defined.

Lemma get_next_stock_market_days_first_step_witness :
  get_next_stock_market_days Sample.us_holidays (at_time 2030 12 31 (Time 12 0 0 0)) 3 =
  Some (Raise KeyError).
Proof.
  apply (proj1 (get_next_stock_market_days_first_step Sample.us_holidays
                  (at_time 2030 12 31 (Time 12 0 0 0)) 3 ltac:(lia)
                  ltac:(vm_compute; split; discriminate))).
  - vm_compute. reflexivity.
  - vm_compute. reflexivity.
Defined.

Lemma get_next_stock_market_days_complete_witness :
  In (at_time 2021 7 5 (Time 12 0 0 0))
    (map (fun d => at_time 2021 7 d (Time 12 0 0 0)) [5; 6; 7; 8; 9]).
Proof.
  apply (get_next_stock_market_days_complete Sample.us_holidays
           (at_time 2021 7 2 (Time 12 0 0 0)) 5
           (map (fun d => at_time 2021 7 d (Time 12 0 0 0)) [5; 6; 7; 8; 9])
           ltac:(vm_compute; reflexivity)
           (ymd2ord 2021 7 5) (at_time 2021 7 9 (Time 12 0 0 0))).
  - cbn. tauto.
  - vm_compute. split; [reflexivity | discriminate].
  - vm_compute. discriminate.
Defined.

Lemma get_last_time_market_was_open_fixpoint_witness :
  get_last_time_market_was_open Sample.us_holidays_contains
    (at_time 2021 7 2 (Time 21 0 0 0)) =
  Some (Ok (at_time 2021 7 2 (Time 21 0 0 0))).
Proof.
  apply (get_last_time_market_was_open_fixpoint Sample.us_holidays_contains
           (at_time 2021 7 5 (Time 10 0 0 0))).
  - vm_compute. split; discriminate.
  - vm_compute. reflexivity.
Defined.

Lemma get_last_time_market_was_open_monotone_witness :
  dt_date (at_time 2021 7 2 (Time 21 0 0 0)) <= dt_date (at_time 2021 7 6 (Time 21 0 0 0)).
Proof.
  apply (get_last_time_market_was_open_monotone Sample.us_holidays_contains
           (at_time 2021 7 4 (Time 10 0 0 0)) (at_time 2021 7 6 (Time 10 0 0 0))).
  - vm_compute. discriminate.
  - vm_compute. discriminate.
  - vm_compute. discriminate.
  - vm_compute. reflexivity.
  - vm_compute. reflexivity.
Defined.

Lemma next_days_are_open_days_witness :
  b_is_stock_market_open Sample.us_holidays (at_time 2021 7 5 (Time 10 0 0 0)) = Ok true.
Proof.
  apply (next_days_are_open_days Sample.us_holidays
           (at_time 2021 7 2 (Time 12 0 0 0)) 1
           [at_time 2021 7 5 (Time 12 0 0 0)]
           ltac:(vm_compute; reflexivity)
           (at_time 2021 7 5 (Time 12 0 0 0)) (Time 10 0 0 0)).
  now left.
Defined.

Lemma check_positive_list_single_witness :
  check_positive_list SampleInt.py_int "42" = Accept [42].
Proof.
  apply (check_positive_list_single SampleInt.py_int "42"). reflexivity.
Defined.
